(** * Albatroz UI command-line tool ([src/cli.js]): model and properties

    The tool is a sequence of effects on the outside world: it reads and
    writes files, prints to the terminal, asks one question, runs one
    external command and performs one HTTP request.  The model below keeps
    the shape of the JavaScript source: every function of [cli.js] is a
    computation in a small monad [M] that threads the state of the world,
    can throw a JavaScript error ([try]/[catch]) and can end the process
    ([process.exit]).  What the libraries do (JSON.parse, axios, inquirer,
    child_process) is taken from a [runtime] record, so that every property
    holds for all behaviours of the network, the operator and the package
    manager. *)

From Stdlib Require Import Ascii String DecimalString.
From stdpp Require Import base gmap strings list.

Local Open Scope string_scope.
Local Open Scope list_scope.

(** ** Strings *)

Definition nl : string := String (ascii_of_nat 10) EmptyString.
Definition dquote : string := String (ascii_of_nat 34) EmptyString.

(** [String.prototype.toLowerCase] on the characters the tool is concerned
    with: the strings of the program are sequences of 8-bit characters and the
    case mapping acts on the letters A..Z, one character at a time.  This is
    what JavaScript does on ASCII strings, which is all the program lets
    through to a request or a file (the catalog is ASCII); it is not what
    JavaScript does on every string: see [js_toLowerCase] below, on UTF-16
    code units, where the mapping depends on the context. *)
Definition lower_char (c : ascii) : ascii :=
  let n := nat_of_ascii c in
  if (65 <=? n)%nat && (n <=? 90)%nat then ascii_of_nat (n + 32) else c.

Definition is_upper (c : ascii) : bool :=
  let n := nat_of_ascii c in (65 <=? n)%nat && (n <=? 90)%nat.

Fixpoint no_upper (s : string) : bool :=
  match s with
  | EmptyString => true
  | String c rest => negb (is_upper c) && no_upper rest
  end.

Fixpoint toLowerCase (s : string) : string :=
  match s with
  | EmptyString => EmptyString
  | String c rest => String (lower_char c) (toLowerCase rest)
  end.

(** [name.charAt(0)] and [name.slice(1)]. *)
Definition charAt0 (s : string) : string :=
  match s with
  | EmptyString => EmptyString
  | String c _ => String c EmptyString
  end.

Definition slice1 (s : string) : string :=
  match s with
  | EmptyString => EmptyString
  | String _ rest => rest
  end.

Definition is_empty (s : string) : bool :=
  match s with EmptyString => true | _ => false end.

Definition dec_of_nat (n : nat) : string := NilEmpty.string_of_uint (Nat.to_uint n).
Definition dec_of_Z (z : Z) : string := NilEmpty.string_of_int (Z.to_int z).

(** ** JavaScript values read from JSON files

    [undefined] is [None] in [option json].  An object keeps its members in
    the order of the text; when a key occurs twice the last one is the value
    of the property.  Numbers are kept as integers: the tool only tests them
    for truthiness or interpolates them into a string. *)

#[warnings="-register-all"]
Inductive json : Type :=
| JNull
| JBool (b : bool)
| JNum (n : Z)
| JStr (s : string)
| JArr (elems : list json)
| JObj (members : list (string * json)).

Fixpoint obj_get (k : string) (members : list (string * json)) : option json :=
  match members with
  | [] => None
  | (k', v) :: rest =>
      match obj_get k rest with
      | Some v' => Some v'
      | None => if String.eqb k k' then Some v else None
      end
  end.

(** ToBoolean, as used by [!x] and [!!x]. *)
Definition truthy (v : option json) : bool :=
  match v with
  | None => false
  | Some JNull => false
  | Some (JBool b) => b
  | Some (JNum n) => negb (n =? 0)%Z
  | Some (JStr s) => negb (is_empty s)
  | Some (JArr _) => true
  | Some (JObj _) => true
  end.

(** ToString, as used by a template literal; [None] when the conversion
    throws a TypeError.  An array is the join of its elements ([null] gives
    the empty string); an object that came out of JSON is
    ["[object Object]"], unless it has a member [toString] of its own, which
    is not a function: then it cannot be converted. *)
Fixpoint js_string (v : json) : option string :=
  match v with
  | JNull => Some "null"
  | JBool true => Some "true"
  | JBool false => Some "false"
  | JNum n => Some (dec_of_Z n)
  | JStr s => Some s
  | JArr elems =>
      (fix join (l : list json) : option string :=
         match l with
         | [] => Some EmptyString
         | x :: rest =>
             match (match x with JNull => Some EmptyString | _ => js_string x end) with
             | None => None
             | Some sx =>
                 match rest with
                 | [] => Some sx
                 | _ :: _ =>
                     match join rest with
                     | Some sr => Some (sx +:+ "," +:+ sr)
                     | None => None
                     end
                 end
             end
         end) elems
  | JObj members =>
      match obj_get "toString" members with
      | Some _ => None
      | None => Some "[object Object]"
      end
  end.

Definition template (v : option json) : option string :=
  match v with
  | None => Some "undefined"
  | Some j => js_string j
  end.

(** Own enumerable properties, as copied by the object spread [{...x}]:
    nothing for [undefined], [null], booleans and numbers, the indexed
    characters of a string, the indexed elements of an array. *)
Fixpoint indexed {A : Type} (i : nat) (l : list A) : list (string * A) :=
  match l with
  | [] => []
  | x :: rest => (dec_of_nat i, x) :: indexed (S i) rest
  end.

Fixpoint chars (s : string) : list json :=
  match s with
  | EmptyString => []
  | String c rest => JStr (String c EmptyString) :: chars rest
  end.

Definition spread (v : option json) : list (string * json) :=
  match v with
  | Some (JObj members) => members
  | Some (JArr elems) => indexed 0 elems
  | Some (JStr s) => indexed 0 (chars s)
  | _ => []
  end.

(** ** Errors, terminal output, events *)

(** A thrown value: [error.message] and, for an axios rejection that carries
    a response, [error.response.status]. *)
Record js_error : Type := mkError {
  message : string;
  response_status : option Z
}.

Definition Error (msg : string) : js_error := mkError msg None.

Inductive colour : Type := red | yellow | gray | blue | green.

(** One argument of [console.log]: a chalk-styled string or a plain one. *)
Inductive text : Type :=
| Styled (c : colour) (s : string)
| Plain (s : string).

Inductive event : Type :=
| ConsoleLog (args : list text)
| ConsoleError (args : list text)
| SpinnerStart (label : string)
| SpinnerSucceed (t : text)
| SpinnerFail (t : text)
| ExistsSync (path : string)
| ReadFile (path : string)
| EnsureDir (path : string)
| WriteFile (path content : string)
| HttpGet (url : string)
| Prompt (question : string)
| ExecSync (cmd : string).

(** ** The world *)

Inductive package_manager : Type := npm | yarn | pnpm.

(** The nested object [DEFAULT_CONFIG.dependencies] lives in the heap; a
    configuration object holds a reference to it. *)
Record deps_obj : Type := mkDeps {
  dep_expo : bool;
  dep_lucide : bool
}.

#[global] Instance deps_obj_inhabited : Inhabited deps_obj :=
  populate (mkDeps false false).

Definition loc := nat.

Record config_obj : Type := mkConfig {
  baseUrl : string;
  dependencies : loc
}.

(** Files are keyed by the path the program passes; a file that cannot be
    read is absent from the map.  Writing a file and creating a directory
    always succeed; directories themselves are not tracked. *)
Record world : Type := mkWorld {
  files : gmap string string;
  heap : gmap loc deps_obj;
  trace : list event
}.

(** The answer to a request, after redirections: a status and the text that
    axios hands over as [response.data], or no answer at all with the
    message of the failure. *)
Inductive http_reply : Type :=
| Reply (status : Z) (body : string)
| NoReply (msg : string).

Inductive parse_result : Type :=
| Parsed (j : json)
| SyntaxError (msg : string).

(** What the libraries and the environment answer. *)
Record runtime : Type := mkRuntime {
  JSON_parse : string -> parse_result;
  http : string -> http_reply;
  inquirer_answer : package_manager;
  child_process : string -> gmap string string -> option string * gmap string string;
  process_cwd : string
}.

(** ** The monad of the program *)

Inductive outcome (A : Type) : Type :=
| Ret (a : A)
| Throw (e : js_error)
| Exit (code : Z).

Arguments Ret {A} a.
Arguments Throw {A} e.
Arguments Exit {A} code.

Definition M (A : Type) : Type := world -> outcome A * world.

Definition ret {A : Type} (a : A) : M A := fun w => (Ret a, w).

Definition bind {A B : Type} (m : M A) (k : A -> M B) : M B :=
  fun w =>
    match m w with
    | (Ret a, w') => k a w'
    | (Throw e, w') => (Throw e, w')
    | (Exit c, w') => (Exit c, w')
    end.

Definition throw {A : Type} (e : js_error) : M A := fun w => (Throw e, w).

(** [process.exit(code)] ends the process: no handler runs after it. *)
Definition process_exit {A : Type} (code : Z) : M A := fun w => (Exit code, w).

Definition try_catch {A : Type} (m : M A) (handler : js_error -> M A) : M A :=
  fun w =>
    match m w with
    | (Throw e, w') => handler e w'
    | r => r
    end.

Notation "x <- m ;; k" := (bind m (fun x => k))
  (at level 100, m at next level, right associativity).
Notation "m ;; k" := (bind m (fun _ => k))
  (at level 100, right associativity).

Definition emit (e : event) : M unit :=
  fun w => (Ret tt, mkWorld (files w) (heap w) (trace w ++ [e])%list).

Definition console_log (args : list text) : M unit := emit (ConsoleLog args).
Definition console_error (args : list text) : M unit := emit (ConsoleError args).
Definition spinner_start (label : string) : M unit := emit (SpinnerStart label).
Definition spinner_succeed (t : text) : M unit := emit (SpinnerSucceed t).
Definition spinner_fail (t : text) : M unit := emit (SpinnerFail t).

Fixpoint forEach {A : Type} (l : list A) (f : A -> M unit) : M unit :=
  match l with
  | [] => ret tt
  | x :: rest => f x ;; forEach rest f
  end.

(** Exit status of the process once a command has run. *)
Definition exit_code {A : Type} (o : outcome A) : Z :=
  match o with
  | Ret _ => 0
  | Throw _ => 1
  | Exit c => c
  end.

(** ** Library calls *)

(** [path.join] on POSIX, for segments that need no normalisation (no [.],
    [..] or doubled separator), which is what the tool passes. *)
Fixpoint ends_with_slash (s : string) : bool :=
  match s with
  | EmptyString => false
  | String c EmptyString => String.eqb (String c EmptyString) "/"
  | String _ rest => ends_with_slash rest
  end.

Definition path_join2 (a b : string) : string :=
  if is_empty a then b
  else if ends_with_slash a then a +:+ b
  else a +:+ "/" +:+ b.

Definition path_join (segments : list string) : string :=
  fold_left path_join2 segments EmptyString.

(** Reading a property of a parsed value: a TypeError on [null], the
    member of an object, [undefined] on anything else. *)
Definition get_property (v : json) (k : string) : M (option json) :=
  match v with
  | JNull =>
      throw (Error ("Cannot read properties of null (reading '" +:+ k +:+ "')"))
  | JObj members => ret (obj_get k members)
  | _ => ret None
  end.

Section Program.

Variable rt : runtime.

Definition existsSync (path : string) : M bool :=
  emit (ExistsSync path) ;;
  fun w => (Ret (bool_decide (is_Some (files w !! path))), w).

Definition readFileSync (path : string) : M string :=
  emit (ReadFile path) ;;
  fun w =>
    match files w !! path with
    | Some content => (Ret content, w)
    | None =>
        (Throw (Error ("ENOENT: no such file or directory, open '" +:+ path +:+ "'")), w)
    end.

Definition writeFile (path content : string) : M unit :=
  emit (WriteFile path content) ;;
  fun w => (Ret tt, mkWorld (<[path := content]> (files w)) (heap w) (trace w)).

Definition ensureDir (path : string) : M unit := emit (EnsureDir path).

Definition parse (s : string) : M json :=
  match JSON_parse rt s with
  | Parsed j => ret j
  | SyntaxError msg => throw (Error msg)
  end.

(** [axios.get]: resolves with [response.data] for a 2xx status, rejects
    with the response attached for any other status, rejects without a
    response when no answer came.  The [body] of a [Reply] is
    [response.data], after the transformation axios applies to the bytes
    received, and it is a text: an answer that axios turns into something
    else (a body that is itself JSON) is not described by the model. *)
Definition axios_get (url : string) : M string :=
  emit (HttpGet url) ;;
  match http rt url with
  | Reply status body =>
      if (200 <=? status)%Z && (status <? 300)%Z then ret body
      else throw (mkError ("Request failed with status code " +:+ dec_of_Z status)
                          (Some status))
  | NoReply msg => throw (Error msg)
  end.

Definition prompt_question : string := "Which package manager do you want to use?".

Definition inquirer_prompt : M package_manager :=
  emit (Prompt prompt_question) ;; ret (inquirer_answer rt).

(** [execSync]: the external command may change the files whether or not it
    succeeds; a failure is thrown. *)
Definition execSync (cmd : string) : M unit :=
  emit (ExecSync cmd) ;;
  fun w =>
    let '(failure, files') := child_process rt cmd (files w) in
    let w' := mkWorld files' (heap w) (trace w) in
    match failure with
    | None => (Ret tt, w')
    | Some msg => (Throw (Error msg), w')
    end.

(** Reads and writes of the flags of a [dependencies] object in the heap. *)
Definition get_flags (l : loc) : M deps_obj := fun w => (Ret (heap w !!! l), w).

Definition set_expo (l : loc) (b : bool) : M unit :=
  fun w =>
    let d := heap w !!! l in
    (Ret tt, mkWorld (files w) (<[l := mkDeps b (dep_lucide d)]> (heap w)) (trace w)).

Definition set_lucide (l : loc) (b : bool) : M unit :=
  fun w =>
    let d := heap w !!! l in
    (Ret tt, mkWorld (files w) (<[l := mkDeps (dep_expo d) b]> (heap w)) (trace w)).

(** ** The program, function by function *)

Definition AVAILABLE_COMPONENTS : list string := ["alert"; "avatar"; "card"; "toast"].

Definition CONFIG_FILE : string := "albatroz.json".

(** The module-level [DEFAULT_CONFIG.dependencies] object and the heap of a
    process that has just started. *)
Definition DEFAULT_DEPENDENCIES : loc := 0%nat.

Definition DEFAULT_CONFIG : config_obj :=
  mkConfig
    "https://raw.githubusercontent.com/eugustavo/albatroz/refs/heads/main/src/components"
    DEFAULT_DEPENDENCIES.

(** [{ ...config }]: a new object with the same fields; the field
    [dependencies] is copied as a reference. *)
Definition spread_config (config : config_obj) : config_obj :=
  mkConfig (baseUrl config) (dependencies config).

Definition initial_heap : gmap loc deps_obj :=
  {[ DEFAULT_DEPENDENCIES := mkDeps false false ]}.

Definition start (fs : gmap string string) : world := mkWorld fs initial_heap [].

Definition formatComponentName (name : string) : string :=
  if is_empty name then EmptyString
  else toLowerCase (charAt0 name) +:+ toLowerCase (slice1 name).

Definition downloadComponent (componentName : string) (baseUrl : option json) : M string :=
  try_catch
    (match template baseUrl with
     | Some base => axios_get (base +:+ "/" +:+ toLowerCase componentName +:+ ".tsx")
     | None => throw (Error "Cannot convert object to primitive value")
     end)
    (fun error =>
       if bool_decide (response_status error = Some 404%Z)
       then throw (Error "Component not found in repository")
       else throw error).

(** [{ ...packageJson.dependencies, ...packageJson.devDependencies }] *)
Definition merged_dependencies (packageJson : json) : M (list (string * json)) :=
  deps <- get_property packageJson "dependencies" ;;
  devDeps <- get_property packageJson "devDependencies" ;;
  ret (spread deps ++ spread devDeps)%list.

Definition checkExpoProject : M bool :=
  try_catch
    (content <- readFileSync "package.json" ;;
     packageJson <- parse content ;;
     dependencies <- merged_dependencies packageJson ;;
     if negb (truthy (obj_get "expo" dependencies)) then
       console_error [Styled red (nl +:+ "Error: This is not an Expo project")] ;;
       console_log [Styled yellow (nl +:+ "At this moment, we only support Expo projects.")] ;;
       console_log [Styled gray (nl +:+ "Please create a new project using:")] ;;
       console_log [Styled blue (nl +:+ "  npx create-expo-app@latest")] ;;
       process_exit 1
     else ret true)
    (fun _ =>
       console_error [Styled red (nl +:+ "Error: Could not find package.json")] ;;
       console_log [Styled yellow (nl +:+ "Please make sure you are in the root of your project.")] ;;
       process_exit 1).

Definition checkDependency (dependency : string) : M bool :=
  try_catch
    (content <- readFileSync "package.json" ;;
     packageJson <- parse content ;;
     dependencies <- merged_dependencies packageJson ;;
     ret (truthy (obj_get dependency dependencies)))
    (fun _ => ret false).

(** [JSON.stringify(config, null, 2)] for a configuration object. *)
Definition json_bool (b : bool) : string := if b then "true" else "false".

Definition stringify_config (url : string) (d : deps_obj) : string :=
  "{" +:+ nl +:+
  "  " +:+ dquote +:+ "baseUrl" +:+ dquote +:+ ": " +:+ dquote +:+ url +:+ dquote +:+ "," +:+ nl +:+
  "  " +:+ dquote +:+ "dependencies" +:+ dquote +:+ ": {" +:+ nl +:+
  "    " +:+ dquote +:+ "expo" +:+ dquote +:+ ": " +:+ json_bool (dep_expo d) +:+ "," +:+ nl +:+
  "    " +:+ dquote +:+ "lucide-react-native" +:+ dquote +:+ ": " +:+ json_bool (dep_lucide d) +:+ nl +:+
  "  }" +:+ nl +:+
  "}".

Definition readConfig : M json :=
  content <- readFileSync CONFIG_FILE ;;
  parse content.

Definition saveConfig (config : config_obj) : M unit :=
  d <- get_flags (dependencies config) ;;
  writeFile CONFIG_FILE (stringify_config (baseUrl config) d).

Definition install_command (pm : package_manager) : string :=
  match pm with
  | npm => "npm install"
  | yarn => "yarn add"
  | pnpm => "pnpm add"
  end.

Definition initializeProject : M bool :=
  console_log [Styled blue (nl +:+ "Initializing Albatroz UI...")] ;;
  checkExpoProject ;;
  let config := spread_config DEFAULT_CONFIG in
  has_expo <- checkDependency "expo" ;;
  set_expo (dependencies config) has_expo ;;
  has_lucide <- checkDependency "lucide-react-native" ;;
  set_lucide (dependencies config) has_lucide ;;
  d <- get_flags (dependencies config) ;;
  packageManager <-
    (if negb (dep_lucide d) then
       answer <- inquirer_prompt ;; ret (Some answer)
     else ret None) ;;
  spinner_start "Checking and installing dependencies..." ;;
  try_catch
    (d1 <- get_flags (dependencies config) ;;
     (if negb (dep_lucide d1) then
        let installCommand :=
          match packageManager with
          | Some pm => install_command pm
          | None => "undefined"
          end in
        d2 <- get_flags (dependencies config) ;;
        if negb (dep_lucide d2) then
          execSync (installCommand +:+ " lucide-react-native") ;;
          set_lucide (dependencies config) true
        else ret tt
      else ret tt) ;;
     saveConfig config ;;
     spinner_succeed (Styled green "Project initialized successfully!") ;;
     ret true)
    (fun error =>
       spinner_fail (Styled red "Failed to initialize project") ;;
       console_error [Styled red (nl +:+ "Error details:"); Plain (message error)] ;;
       ret false).

Definition ensureConfig : M bool :=
  present <- existsSync CONFIG_FILE ;;
  if negb present then
    initializeProject ;; ret false
  else ret true.

Definition list_catalog : M unit :=
  forEach AVAILABLE_COMPONENTS
    (fun comp => console_log [Styled yellow ("  - " +:+ formatComponentName comp)]).

Definition includes (l : list string) (x : string) : bool :=
  existsb (String.eqb x) l.

Definition addComponent (componentName : string) (config : json) : M unit :=
  spinner_start "Adding component..." ;;
  try_catch
    (let normalizedName := toLowerCase componentName in
     if negb (includes AVAILABLE_COMPONENTS normalizedName) then
       spinner_fail (Styled red "Component not available") ;;
       console_log [Styled blue (nl +:+ "Available components:")] ;;
       list_catalog
     else
       configBaseUrl <- get_property config "baseUrl" ;;
       componentContent <- downloadComponent componentName configBaseUrl ;;
       let componentPath := path_join [process_cwd rt; "src"; "components"; "ui"] in
       ensureDir componentPath ;;
       let formattedName := formatComponentName componentName in
       writeFile (path_join [componentPath; formattedName +:+ ".tsx"]) componentContent ;;
       spinner_succeed
         (Styled green ("Component " +:+ formattedName +:+ " added successfully!")) ;;
       console_log
         [Styled gray (nl +:+ "Location: src/components/ui/" +:+ formattedName +:+ ".tsx")])
    (fun error =>
       spinner_fail
         (Styled red ("Failed to add component " +:+ formatComponentName componentName)) ;;
       console_error [Styled red (nl +:+ "Error details:"); Plain (message error)]).

(** The commands.  [component] is [None] when the argument is left out; an
    empty string is falsy as well. *)
Definition no_component (component : option string) : bool :=
  match component with
  | None => true
  | Some s => is_empty s
  end.

Definition add_action (component : option string) : M unit :=
  try_catch
    (checkExpoProject ;;
     configured <- ensureConfig ;;
     if negb configured then
       console_log [Styled yellow (nl +:+ "Please run init command first.")]
     else
       config <- readConfig ;;
       if no_component component then
         console_log [Styled blue (nl +:+ "Available components:")] ;;
         list_catalog ;;
         console_log [Styled gray (nl +:+ "Usage:")] ;;
         console_log [Styled yellow "  npx @albatroz/ui add <component>"]
       else
         addComponent (default EmptyString component) config)
    (fun error => console_error [Styled red (nl +:+ "Error:"); Plain (message error)]).

Definition init_action : M unit :=
  initializeProject ;; ret tt.

Inductive command : Type :=
| CmdInit
| CmdAdd (component : option string)
| CmdUnknown.

Definition run (cmd : command) : M unit :=
  match cmd with
  | CmdInit => init_action
  | CmdAdd component => add_action component
  | CmdUnknown =>
      console_error [Styled red (nl +:+ "Error: Invalid command")] ;;
      console_log [Styled gray (nl +:+ "Available commands:")] ;;
      console_log [Styled yellow "  - init"] ;;
      console_log [Styled yellow "  - add [component]"] ;;
      process_exit 1
  end.

End Program.

(** A command run in a new process on the files [fs]. *)
Definition invoke (rt : runtime) (cmd : command) (fs : gmap string string)
  : outcome unit * world :=
  run rt cmd (start fs).

(** ** Observations on runs *)

(** The world after some more events. *)
Definition log (evs : list event) (w : world) : world :=
  mkWorld (files w) (heap w) (trace w ++ evs).

Definition is_write (e : event) : bool :=
  match e with WriteFile _ _ => true | _ => false end.

Definition is_http (e : event) : bool :=
  match e with HttpGet _ => true | _ => false end.

Definition is_prompt (e : event) : bool :=
  match e with Prompt _ => true | _ => false end.

Definition is_exec (e : event) : bool :=
  match e with ExecSync _ => true | _ => false end.

Definition is_read_of (path : string) (e : event) : bool :=
  match e with ReadFile p => String.eqb p path | _ => false end.

(** The manifest as the tool sees it, and the value it finds for a key in
    the merged [dependencies] and [devDependencies]; [None] when the file is
    absent or unreadable, is not JSON, is not an object, or does not declare
    the key. *)
Definition manifest (rt : runtime) (fs : gmap string string) : option json :=
  match fs !! "package.json" with
  | Some content =>
      match JSON_parse rt content with
      | Parsed j => Some j
      | SyntaxError _ => None
      end
  | None => None
  end.

Definition declared (rt : runtime) (fs : gmap string string) (k : string) : option json :=
  match manifest rt fs with
  | Some (JObj members) =>
      obj_get k (spread (obj_get "dependencies" members)
                 ++ spread (obj_get "devDependencies" members))%list
  | _ => None
  end.

(** The manifest can be read as far as [packageJson.dependencies]. *)
Definition manifest_usable (rt : runtime) (fs : gmap string string) : bool :=
  match manifest rt fs with
  | Some JNull => false
  | Some _ => true
  | None => false
  end.

Definition not_expo_events : list event :=
  [ ReadFile "package.json";
    ConsoleError [Styled red (nl +:+ "Error: This is not an Expo project")];
    ConsoleLog [Styled yellow (nl +:+ "At this moment, we only support Expo projects.")];
    ConsoleLog [Styled gray (nl +:+ "Please create a new project using:")];
    ConsoleLog [Styled blue (nl +:+ "  npx create-expo-app@latest")] ].

Definition no_manifest_events : list event :=
  [ ReadFile "package.json";
    ConsoleError [Styled red (nl +:+ "Error: Could not find package.json")];
    ConsoleLog [Styled yellow (nl +:+ "Please make sure you are in the root of your project.")] ].

Definition validator_events (rt : runtime) (fs : gmap string string) : list event :=
  if manifest_usable rt fs then not_expo_events else no_manifest_events.

Definition init_banner : event :=
  ConsoleLog [Styled blue (nl +:+ "Initializing Albatroz UI...")].

Definition install_line (pm : package_manager) : string :=
  install_command pm +:+ " lucide-react-native".

Definition saved_config (d : deps_obj) : string :=
  stringify_config (baseUrl DEFAULT_CONFIG) d.

Definition checks : list event :=
  [ init_banner; ReadFile "package.json"; ReadFile "package.json"; ReadFile "package.json" ].

Definition present_events : list event :=
  checks ++
  [ SpinnerStart "Checking and installing dependencies...";
    WriteFile CONFIG_FILE (saved_config (mkDeps true true));
    SpinnerSucceed (Styled green "Project initialized successfully!") ].

Definition installed_events (pm : package_manager) : list event :=
  checks ++
  [ Prompt prompt_question;
    SpinnerStart "Checking and installing dependencies...";
    ExecSync (install_line pm);
    WriteFile CONFIG_FILE (saved_config (mkDeps true true));
    SpinnerSucceed (Styled green "Project initialized successfully!") ].

Definition install_failed_events (pm : package_manager) (msg : string) : list event :=
  checks ++
  [ Prompt prompt_question;
    SpinnerStart "Checking and installing dependencies...";
    ExecSync (install_line pm);
    SpinnerFail (Styled red "Failed to initialize project");
    ConsoleError [Styled red (nl +:+ "Error details:"); Plain msg] ].

Definition baseUrl_of (config : json) : option json :=
  match config with
  | JObj members => obj_get "baseUrl" members
  | _ => None
  end.

(** The base of the request, or the message of the TypeError thrown before
    any request is made. *)
Definition request_base (config : json) : string + string :=
  match config with
  | JNull => inr "Cannot read properties of null (reading 'baseUrl')"
  | _ =>
      match template (baseUrl_of config) with
      | Some base => inl base
      | None => inr "Cannot convert object to primitive value"
      end
  end.

Definition request_url (base componentName : string) : string :=
  base +:+ "/" +:+ toLowerCase componentName +:+ ".tsx".

Definition target_dir (rt : runtime) : string :=
  path_join [process_cwd rt; "src"; "components"; "ui"].

Definition target_path (rt : runtime) (fileName : string) : string :=
  path_join [process_cwd rt; "src"; "components"; "ui"; fileName].

(** What the download gives: the body, or the message of the error that
    reaches the handler of [addComponent]. *)
Definition fetched (reply : http_reply) : string + string :=
  match reply with
  | Reply status body =>
      if (200 <=? status)%Z && (status <? 300)%Z then inl body
      else if (status =? 404)%Z then inr "Component not found in repository"
      else inr ("Request failed with status code " +:+ dec_of_Z status)
  | NoReply msg => inr msg
  end.

Definition catalog_listing : list event :=
  map (fun comp => ConsoleLog [Styled yellow ("  - " +:+ toLowerCase comp)])
      AVAILABLE_COMPONENTS.

Definition rejection_events : list event :=
  [ SpinnerStart "Adding component...";
    SpinnerFail (Styled red "Component not available");
    ConsoleLog [Styled blue (nl +:+ "Available components:")] ] ++ catalog_listing.

Definition success_events (rt : runtime) (url componentName body : string) : list event :=
  [ SpinnerStart "Adding component...";
    HttpGet url;
    EnsureDir (target_dir rt);
    WriteFile (target_path rt (toLowerCase componentName +:+ ".tsx")) body;
    SpinnerSucceed (Styled green ("Component " +:+ toLowerCase componentName
                                  +:+ " added successfully!"));
    ConsoleLog [Styled gray (nl +:+ "Location: src/components/ui/"
                             +:+ toLowerCase componentName +:+ ".tsx")] ].

Definition failure_events (url componentName msg : string) : list event :=
  [ SpinnerStart "Adding component...";
    HttpGet url;
    SpinnerFail (Styled red ("Failed to add component " +:+ toLowerCase componentName));
    ConsoleError [Styled red (nl +:+ "Error details:"); Plain msg] ].

Definition no_request_events (componentName msg : string) : list event :=
  [ SpinnerStart "Adding component...";
    SpinnerFail (Styled red ("Failed to add component " +:+ toLowerCase componentName));
    ConsoleError [Styled red (nl +:+ "Error details:"); Plain msg] ].

Definition run_init_first : event :=
  ConsoleLog [Styled yellow (nl +:+ "Please run init command first.")].

Definition add_preamble : list event :=
  [ ReadFile "package.json"; ExistsSync CONFIG_FILE ].

Definition add_preamble_read : list event :=
  [ ReadFile "package.json"; ExistsSync CONFIG_FILE; ReadFile CONFIG_FILE ].

(** ** Concrete projects, for the examples *)

Definition quoted (s : string) : string := dquote +:+ s +:+ dquote.

(** [{"dependencies":{"expo":"1.0.0","lucide-react-native":"2.0.0"}}] *)
Definition manifest_both : string :=
  "{" +:+ quoted "dependencies" +:+ ":{" +:+ quoted "expo" +:+ ":" +:+ quoted "1.0.0"
  +:+ "," +:+ quoted "lucide-react-native" +:+ ":" +:+ quoted "2.0.0" +:+ "}}".

Definition manifest_both_json : json :=
  JObj [("dependencies",
         JObj [("expo", JStr "1.0.0"); ("lucide-react-native", JStr "2.0.0")])].

(** [{"dependencies":{"expo":"1.0.0"}}] *)
Definition manifest_expo : string :=
  "{" +:+ quoted "dependencies" +:+ ":{" +:+ quoted "expo" +:+ ":" +:+ quoted "1.0.0" +:+ "}}".

Definition manifest_expo_json : json :=
  JObj [("dependencies", JObj [("expo", JStr "1.0.0")])].

(** The value of a saved configuration. *)
Definition config_json (d : deps_obj) : json :=
  JObj [("baseUrl", JStr (baseUrl DEFAULT_CONFIG));
        ("dependencies",
         JObj [("expo", JBool (dep_expo d)); ("lucide-react-native", JBool (dep_lucide d))])].

(** A parser that knows the texts above. *)
Definition known_texts : list (string * json) :=
  [ (manifest_both, manifest_both_json);
    (manifest_expo, manifest_expo_json);
    (saved_config (mkDeps true true), config_json (mkDeps true true)) ].

Fixpoint parse_known (table : list (string * json)) (s : string) : parse_result :=
  match table with
  | [] => SyntaxError "Unexpected token"
  | (t, j) :: rest => if String.eqb s t then Parsed j else parse_known rest s
  end.

Definition alert_body : string := "export const Alert = ...;".

(** A runtime: the operator answers npm, the package manager answers
    [install] and leaves the files as they are, every request is answered
    with [reply], the project is in [/project]. *)
Definition project_runtime (reply : http_reply) (install : option string) : runtime :=
  mkRuntime (parse_known known_texts) (fun _ => reply) npm
            (fun _ fs => (install, fs)) "/project".

Definition project_both : gmap string string := {[ "package.json" := manifest_both ]}.
Definition project_expo : gmap string string := {[ "package.json" := manifest_expo ]}.

Definition ok_runtime : runtime := project_runtime (Reply 200 alert_body) None.

Definition failing_install : runtime :=
  project_runtime (Reply 200 alert_body) (Some "Command failed: npm install lucide-react-native").

(** Two runs of [init], each in its own process, in a project whose
    manifest declares only [expo]; the install command succeeds and leaves
    the manifest as it is. *)
Definition first_init : outcome unit * world := invoke ok_runtime CmdInit project_expo.

Definition second_init : outcome unit * world :=
  invoke ok_runtime CmdInit (files (snd first_init)).

(** [init], then [add alert] in a new process, in a project whose manifest
    declares both dependencies. *)
Definition after_add_alert : outcome unit * world :=
  invoke ok_runtime (CmdAdd (Some "alert"))
         (files (snd (invoke ok_runtime CmdInit project_both))).

(** ** Further observations *)

Definition is_mkdir (e : event) : bool :=
  match e with EnsureDir _ => true | _ => false end.

Definition is_unknown (cmd : command) : bool :=
  match cmd with CmdUnknown => true | _ => false end.

Fixpoint last_char (s : string) : option ascii :=
  match s with
  | EmptyString => None
  | String c rest =>
      match last_char rest with
      | Some c' => Some c'
      | None => Some c
      end
  end.

(** What [add] prints when no component is named. *)
Definition usage_events : list event :=
  [ ConsoleLog [Styled blue (nl +:+ "Available components:")] ] ++ catalog_listing ++
  [ ConsoleLog [Styled gray (nl +:+ "Usage:")];
    ConsoleLog [Styled yellow "  npx @albatroz/ui add <component>"] ].

(** The project with both dependencies, once initialised; the same with a
    configuration file that is not JSON. *)
Definition project_configured : gmap string string :=
  <[CONFIG_FILE := saved_config (mkDeps true true)]> project_both.

Definition project_malformed : gmap string string :=
  <[CONFIG_FILE := "{ baseUrl: "]> project_both.

(** A runtime whose manifest is the given value, whatever the text. *)
Definition manifest_runtime (packageJson : json) (reply : http_reply) : runtime :=
  mkRuntime (fun _ => Parsed packageJson) (fun _ => reply) yarn
            (fun _ fs => (None, fs)) "/project".

(** [expo] is empty in [dependencies] and set in [devDependencies]. *)
Definition manifest_dev_wins : json :=
  JObj [("dependencies", JObj [("expo", JStr EmptyString)]);
        ("devDependencies", JObj [("expo", JStr "~50.0.0")])].

(** [expo] is declared, with the value [false]. *)
Definition manifest_expo_false : json :=
  JObj [("dependencies", JObj [("expo", JBool false)])].

(** A project whose manifest is not JSON. *)
Definition project_bad_manifest : gmap string string :=
  {[ "package.json" := "{ dependencies: " ]}.

(** ** Strings as JavaScript has them

    A JavaScript string is a sequence of UTF-16 code units.  The case
    mapping below is that of [String.prototype.toLowerCase] on strings made
    of Basic Latin and of the Greek letter sigma: A..Z go to a..z, and the
    capital sigma goes to the final form when a cased letter comes before it
    and none comes after it (characters that case ignores are skipped on
    both sides), to the small sigma otherwise.  Every other code unit is
    left as it is. *)

Definition lower_unit (u : N) : N :=
  if ((65 <=? u) && (u <=? 90))%N then (u + 32)%N else u.

Definition capital_sigma : N := 931%N.
Definition small_sigma : N := 963%N.
Definition final_sigma : N := 962%N.

Definition cased_unit (u : N) : bool :=
  (((65 <=? u) && (u <=? 90)) || ((97 <=? u) && (u <=? 122))
   || (u =? capital_sigma) || (u =? small_sigma) || (u =? final_sigma))%N.

(** Apostrophe, full stop, colon, circumflex and grave accent. *)
Definition case_ignorable_unit (u : N) : bool :=
  ((u =? 39) || (u =? 46) || (u =? 58) || (u =? 94) || (u =? 96))%N.

Fixpoint cased_follows (s : list N) : bool :=
  match s with
  | [] => false
  | u :: rest => if case_ignorable_unit u then cased_follows rest else cased_unit u
  end.

Fixpoint lower_units (after_cased : bool) (s : list N) : list N :=
  match s with
  | [] => []
  | u :: rest =>
      (if (u =? capital_sigma)%N
       then (if after_cased && negb (cased_follows rest) then final_sigma else small_sigma)
       else lower_unit u)
      :: lower_units (if case_ignorable_unit u then after_cased else cased_unit u) rest
  end.

Definition js_toLowerCase (s : list N) : list N := lower_units false s.

Definition js_charAt0 (s : list N) : list N :=
  match s with
  | [] => []
  | u :: _ => [u]
  end.

Definition js_slice1 (s : list N) : list N :=
  match s with
  | [] => []
  | _ :: rest => rest
  end.

(** [formatComponentName], lines 24 to 27, on code units. *)
Definition js_formatComponentName (name : list N) : list N :=
  match name with
  | [] => []
  | _ :: _ => js_toLowerCase (js_charAt0 name) ++ js_toLowerCase (js_slice1 name)
  end.

Fixpoint units_of (s : string) : list N :=
  match s with
  | EmptyString => []
  | String c rest => N_of_ascii c :: units_of rest
  end.

Definition ascii_only (s : list N) : bool := forallb (fun u => (u <? 128)%N) s.

(** The letter A followed by a capital sigma. *)
Definition a_sigma : list N := [65%N; capital_sigma].

(** ** Further runs *)

Definition is_spinner_fail (e : event) : bool :=
  match e with SpinnerFail _ => true | _ => false end.


Definition add_button_unconfigured : outcome unit * world :=
  invoke ok_runtime (CmdAdd (Some "Button")) project_both.

Definition add_empty_configured : outcome unit * world :=
  invoke ok_runtime (CmdAdd (Some EmptyString)) project_configured.

(** ** Proof tools *)

Create HintDb cli.

#[global] Hint Unfold
  bind ret throw process_exit try_catch emit
  console_log console_error spinner_start spinner_succeed spinner_fail
  existsSync readFileSync writeFile ensureDir parse axios_get inquirer_prompt
  execSync get_flags set_expo set_lucide merged_dependencies
  : cli.

Arguments includes : simpl never.

Ltac run_program := repeat (autounfold with cli; simpl).

Ltac heap_simpl :=
  repeat (progress (rewrite ?lookup_total_insert_eq, ?insert_insert_eq; simpl)).

Ltac same_world := unfold log; simpl; rewrite <- ?app_assoc; reflexivity.

(** * Properties *)

(** ** The model on small inputs *)

Example formatComponentName_Alert : formatComponentName "Alert" = "alert".
Proof. reflexivity. Qed.

Example toLowerCase_mixed : toLowerCase "ToAsT-2" = "toast-2".
Proof. reflexivity. Qed.

Example includes_upper_case : includes AVAILABLE_COMPONENTS (toLowerCase "CARD") = true.
Proof. reflexivity. Qed.

Example includes_button : includes AVAILABLE_COMPONENTS (toLowerCase "Button") = false.
Proof. reflexivity. Qed.

Example obj_get_last_wins : obj_get "a" [("a", JNum 1); ("a", JNum 2)] = Some (JNum 2).
Proof. reflexivity. Qed.

Example spread_string : spread (Some (JStr "ab")) = [("0", JStr "a"); ("1", JStr "b")].
Proof. reflexivity. Qed.

Example truthy_empty_string : truthy (Some (JStr EmptyString)) = false.
Proof. reflexivity. Qed.

Example template_array : template (Some (JArr [JNum 1; JNull; JStr "x"])) = Some "1,,x".
Proof. reflexivity. Qed.

Example template_undefined : template None = Some "undefined".
Proof. reflexivity. Qed.

Example path_join_project :
  path_join ["/project"; "src"; "components"; "ui"; "alert.tsx"]
  = "/project/src/components/ui/alert.tsx".
Proof. reflexivity. Qed.

Example path_join_root : path_join ["/"; "src"; "components"; "ui"] = "/src/components/ui".
Proof. reflexivity. Qed.

(** [devDependencies] come last in the merge. *)
Example declared_in_devDependencies :
  declared (mkRuntime (fun _ => Parsed (JObj [("devDependencies", JObj [("expo", JStr "1")])]))
                      (fun _ => NoReply "offline") npm (fun _ fs => (None, fs)) "/project")
           {[ "package.json" := "..." ]} "expo"
  = Some (JStr "1").
Proof. reflexivity. Qed.

(** ** Case mapping *)

Lemma lower_char_not_upper (c : ascii) : is_upper (lower_char c) = false.
Proof. destruct c as [[] [] [] [] [] [] [] []]; reflexivity. Qed.

Lemma lower_char_idempotent (c : ascii) : lower_char (lower_char c) = lower_char c.
Proof. destruct c as [[] [] [] [] [] [] [] []]; reflexivity. Qed.

Lemma toLowerCase_no_upper (s : string) : no_upper (toLowerCase s) = true.
Proof.
  induction s as [|c rest IH]; simpl; [done|].
  by rewrite lower_char_not_upper, IH.
Qed.

Lemma toLowerCase_idempotent (s : string) : toLowerCase (toLowerCase s) = toLowerCase s.
Proof.
  induction s as [|c rest IH]; simpl; [done|].
  by rewrite lower_char_idempotent, IH.
Qed.

Lemma no_upper_app (s t : string) : no_upper (s +:+ t) = no_upper s && no_upper t.
Proof.
  induction s as [|c rest IH]; simpl; [done|].
  rewrite IH. by rewrite andb_assoc.
Qed.

Lemma formatComponentName_toLowerCase (name : string) :
  formatComponentName name = toLowerCase name.
Proof. destruct name as [|c rest]; reflexivity. Qed.

(** ** Equations of the monad *)

Lemma log_log (e1 e2 : list event) (w : world) :
  log e2 (log e1 w) = log (e1 ++ e2) w.
Proof. unfold log; simpl. by rewrite <- app_assoc. Qed.

Lemma emit_run (e : event) (w : world) : emit e w = (Ret tt, log [e] w).
Proof. reflexivity. Qed.

Lemma bind_ret_run {A B : Type} (m : M A) (k : A -> M B) (w w' : world) (a : A) :
  m w = (Ret a, w') -> bind m k w = k a w'.
Proof. intros H. unfold bind. by rewrite H. Qed.

Lemma bind_exit_run {A B : Type} (m : M A) (k : A -> M B) (w w' : world) (c : Z) :
  m w = (Exit c, w') -> bind m k w = (Exit c, w').
Proof. intros H. unfold bind. by rewrite H. Qed.

(** ** What the validator and the dependency check compute *)

Section Validator.

Variable rt : runtime.

Lemma checkExpoProject_run (w : world) :
  checkExpoProject rt w =
    if truthy (declared rt (files w) "expo")
    then (Ret true, log [ReadFile "package.json"] w)
    else (Exit 1, log (validator_events rt (files w)) w).
Proof.
  unfold checkExpoProject, declared, validator_events, manifest_usable, manifest.
  run_program.
  destruct (files w !! "package.json") as [content|] eqn:Hf; simpl; [|same_world].
  destruct (JSON_parse rt content) as [j|msg] eqn:Hp; simpl; [|same_world].
  destruct j as [|b|n|s|elems|members]; simpl; try same_world.
  destruct (truthy _); simpl; same_world.
Qed.

Lemma checkDependency_run (dependency : string) (w : world) :
  checkDependency rt dependency w =
    (Ret (truthy (declared rt (files w) dependency)), log [ReadFile "package.json"] w).
Proof.
  unfold checkDependency, declared, manifest. run_program.
  destruct (files w !! "package.json") as [content|] eqn:Hf; simpl; [|same_world].
  destruct (JSON_parse rt content) as [j|msg] eqn:Hp; simpl; [|same_world].
  destruct j as [|b|n|s|elems|members]; simpl; same_world.
Qed.

End Validator.

(** ** What initialisation does, case by case *)

Section Initialisation.

Variable rt : runtime.

(** The validator stops the process: nothing is written. *)
Lemma initializeProject_not_expo (w : world) :
  truthy (declared rt (files w) "expo") = false ->
  initializeProject rt w =
    (Exit 1, log (init_banner :: validator_events rt (files w)) w).
Proof.
  intros Hexpo. unfold initializeProject.
  rewrite (bind_ret_run _ _ w (log [init_banner] w) tt) by reflexivity.
  erewrite bind_exit_run; [reflexivity|].
  rewrite checkExpoProject_run. simpl. rewrite Hexpo, log_log. reflexivity.
Qed.

(** Both dependencies declared: no question, no installation. *)
Lemma initializeProject_present (w : world) :
  truthy (declared rt (files w) "expo") = true ->
  truthy (declared rt (files w) "lucide-react-native") = true ->
  initializeProject rt w =
    (Ret true,
     mkWorld (<[CONFIG_FILE := saved_config (mkDeps true true)]> (files w))
             (<[DEFAULT_DEPENDENCIES := mkDeps true true]> (heap w))
             (trace w ++ present_events)).
Proof.
  intros Hexpo Hlucide. unfold initializeProject.
  rewrite (bind_ret_run _ _ w (log [init_banner] w) tt) by reflexivity.
  erewrite bind_ret_run by (rewrite checkExpoProject_run; simpl; rewrite Hexpo; reflexivity).
  erewrite bind_ret_run by (rewrite checkDependency_run; simpl; rewrite Hexpo; reflexivity).
  simpl. run_program.
  rewrite checkDependency_run. simpl. rewrite Hlucide. simpl.
  heap_simpl. unfold saved_config. simpl. by rewrite <- !app_assoc.
Qed.

(** The icon library is not declared: the operator is asked for a package
    manager and its install command is run; the configuration is saved only
    when the command succeeds. *)
Lemma initializeProject_install (w : world) (failure : option string)
    (files' : gmap string string) :
  truthy (declared rt (files w) "expo") = true ->
  truthy (declared rt (files w) "lucide-react-native") = false ->
  child_process rt (install_line (inquirer_answer rt)) (files w) = (failure, files') ->
  initializeProject rt w =
    match failure with
    | None =>
        (Ret true,
         mkWorld (<[CONFIG_FILE := saved_config (mkDeps true true)]> files')
                 (<[DEFAULT_DEPENDENCIES := mkDeps true true]> (heap w))
                 (trace w ++ installed_events (inquirer_answer rt)))
    | Some msg =>
        (Ret false,
         mkWorld files'
                 (<[DEFAULT_DEPENDENCIES := mkDeps true false]> (heap w))
                 (trace w ++ install_failed_events (inquirer_answer rt) msg))
    end.
Proof.
  intros Hexpo Hlucide Hrun. unfold initializeProject.
  rewrite (bind_ret_run _ _ w (log [init_banner] w) tt) by reflexivity.
  erewrite bind_ret_run by (rewrite checkExpoProject_run; simpl; rewrite Hexpo; reflexivity).
  erewrite bind_ret_run by (rewrite checkDependency_run; simpl; rewrite Hexpo; reflexivity).
  simpl. run_program.
  rewrite checkDependency_run. simpl. rewrite Hlucide. simpl.
  heap_simpl. unfold install_line in Hrun. rewrite Hrun.
  destruct failure as [msg|]; simpl; heap_simpl;
    unfold saved_config; simpl; by rewrite <- !app_assoc.
Qed.

(** Every run of [initializeProject], in one statement: it ends the process
    at the validator, or returns after the events of one of the three
    courses above; it never throws. *)
Lemma initializeProject_cases (w : world) :
  (truthy (declared rt (files w) "expo") = false /\
   initializeProject rt w = (Exit 1, log (init_banner :: validator_events rt (files w)) w))
  \/
  (exists (b : bool) (w' : world) (evs : list event),
     truthy (declared rt (files w) "expo") = true /\
     initializeProject rt w = (Ret b, w') /\
     trace w' = trace w ++ evs /\
     heap w' = <[DEFAULT_DEPENDENCIES := mkDeps true b]> (heap w) /\
     (evs = present_events \/
      evs = installed_events (inquirer_answer rt) \/
      exists msg, evs = install_failed_events (inquirer_answer rt) msg)).
Proof.
  destruct (truthy (declared rt (files w) "expo")) eqn:Hexpo.
  - right.
    destruct (truthy (declared rt (files w) "lucide-react-native")) eqn:Hlucide.
    + rewrite initializeProject_present by done.
      eexists _, _, _. repeat split; eauto.
    + destruct (child_process rt (install_line (inquirer_answer rt)) (files w))
        as [failure files'] eqn:Hrun.
      rewrite (initializeProject_install w failure files') by done.
      destruct failure as [msg|]; eexists _, _, _; repeat split; eauto.
  - left. split; [done|]. by apply initializeProject_not_expo.
Qed.

End Initialisation.

(** ** What adding a component does, case by case *)

Section Adding.

Variable rt : runtime.

Lemma list_catalog_run (w : world) :
  list_catalog w = (Ret tt, log catalog_listing w).
Proof. unfold list_catalog. run_program. same_world. Qed.

Lemma addComponent_unavailable (componentName : string) (config : json) (w : world) :
  includes AVAILABLE_COMPONENTS (toLowerCase componentName) = false ->
  addComponent rt componentName config w = (Ret tt, log rejection_events w).
Proof.
  intros Hout. unfold addComponent, list_catalog. run_program.
  rewrite Hout. simpl. same_world.
Qed.

(** An identifier of the catalog: one request at most, one file at most. *)
Lemma addComponent_in_catalog (componentName : string) (config : json) (w : world) :
  includes AVAILABLE_COMPONENTS (toLowerCase componentName) = true ->
  addComponent rt componentName config w =
    match request_base config with
    | inr msg => (Ret tt, log (no_request_events componentName msg) w)
    | inl base =>
        match fetched (http rt (request_url base componentName)) with
        | inl body =>
            (Ret tt,
             mkWorld (<[target_path rt (toLowerCase componentName +:+ ".tsx") := body]>
                        (files w))
                     (heap w)
                     (trace w ++ success_events rt (request_url base componentName)
                                                componentName body))
        | inr msg =>
            (Ret tt, log (failure_events (request_url base componentName) componentName msg) w)
        end
    end.
Proof.
  intros Hin.
  assert (Hcases : config = JNull \/
            (request_base config =
               match template (baseUrl_of config) with
               | Some base => inl base
               | None => inr "Cannot convert object to primitive value"
               end /\
             forall w0, get_property config "baseUrl" w0 = (Ret (baseUrl_of config), w0)))
    by (destruct config; auto).
  unfold addComponent, downloadComponent.
  rewrite !formatComponentName_toLowerCase. run_program. rewrite Hin. simpl.
  destruct Hcases as [->|[-> Hget]]; [same_world|].
  rewrite Hget. simpl.
  destruct (template (baseUrl_of config)) as [base|]; simpl; [|same_world].
  fold (request_url base componentName).
  destruct (http rt (request_url base componentName)) as [status body|msg]; simpl;
    [|same_world].
  destruct ((200 <=? status)%Z && (status <? 300)%Z); simpl.
  - unfold target_path, target_dir. simpl. by rewrite <- !app_assoc.
  - destruct (Z.eqb_spec status 404) as [->|Hne]; simpl; [same_world|].
    rewrite bool_decide_eq_false_2 by congruence. simpl. same_world.
Qed.

Lemma request_base_record (config : json) (b : string) :
  baseUrl_of config = Some (JStr b) -> request_base config = inl b.
Proof.
  intros Hbase. unfold request_base. destruct config; try discriminate.
  by rewrite Hbase.
Qed.

(** [addComponent] handles its own failures: it always returns. *)
Lemma addComponent_returns (componentName : string) (config : json) (w : world) :
  exists w', addComponent rt componentName config w = (Ret tt, w').
Proof.
  destruct (includes AVAILABLE_COMPONENTS (toLowerCase componentName)) eqn:Hin.
  - rewrite addComponent_in_catalog by done.
    destruct (request_base config); [destruct (fetched _)|]; eauto.
  - rewrite addComponent_unavailable by done. eauto.
Qed.

End Adding.

(** ** The commands *)

Section Commands.

Variable rt : runtime.

Lemma run_init (w : world) :
  run rt CmdInit w =
    match initializeProject rt w with
    | (Ret _, w') => (Ret tt, w')
    | (Throw e, w') => (Throw e, w')
    | (Exit c, w') => (Exit c, w')
    end.
Proof. reflexivity. Qed.

(** The validator stops [add] as it stops [init]. *)
Lemma add_action_not_expo (component : option string) (w : world) :
  truthy (declared rt (files w) "expo") = false ->
  add_action rt component w = (Exit 1, log (validator_events rt (files w)) w).
Proof.
  intros Hexpo. unfold add_action, try_catch, bind.
  by rewrite checkExpoProject_run, Hexpo.
Qed.

(** No configuration file: initialisation runs, then the command returns. *)
Lemma add_action_unconfigured (component : option string) (w : world) :
  truthy (declared rt (files w) "expo") = true ->
  files w !! CONFIG_FILE = None ->
  exists (b : bool) (w1 : world),
    initializeProject rt (log add_preamble w) = (Ret b, w1) /\
    add_action rt component w = (Ret tt, log [run_init_first] w1).
Proof.
  intros Hexpo Hconfig.
  set (w0 := log add_preamble w).
  destruct (initializeProject_cases rt w0) as [[Hno _]|(b & w1 & evs & _ & Hinit & _)].
  { simpl in Hno. congruence. }
  exists b, w1. split; [done|].
  unfold add_action, try_catch, bind.
  rewrite checkExpoProject_run, Hexpo.
  unfold ensureConfig, bind, existsSync, bind. rewrite emit_run. simpl.
  rewrite Hconfig. rewrite bool_decide_eq_false_2 by (intros [? ?]; done). simpl.
  rewrite log_log. simpl app. fold add_preamble. fold w0. rewrite Hinit. reflexivity.
Qed.

(** A configuration file that parses and a component name: the command is
    [addComponent] on the parsed configuration. *)
Lemma add_action_configured (componentName content : string) (config : json) (w : world) :
  truthy (declared rt (files w) "expo") = true ->
  files w !! CONFIG_FILE = Some content ->
  JSON_parse rt content = Parsed config ->
  is_empty componentName = false ->
  add_action rt (Some componentName) w =
    addComponent rt componentName config (log add_preamble_read w).
Proof.
  intros Hexpo Hfile Hparse Hname.
  destruct (addComponent_returns rt componentName config (log add_preamble_read w))
    as [w' Hadd].
  rewrite Hadd.
  unfold add_action, try_catch, bind.
  rewrite checkExpoProject_run, Hexpo.
  unfold ensureConfig, bind, existsSync, bind. rewrite emit_run. simpl.
  rewrite Hfile. rewrite bool_decide_eq_true_2 by eauto. simpl.
  unfold readConfig, bind, readFileSync, bind. rewrite emit_run. simpl.
  rewrite Hfile. unfold parse. rewrite Hparse. simpl. rewrite Hname.
  rewrite !log_log. simpl app. fold add_preamble_read. rewrite Hadd. reflexivity.
Qed.

End Commands.

(** * The claims *)

(** ** The component fetcher and writer *)






(** C3, as amended.  In a project that passes the validation and whose
    [albatroz.json] parses, the command [add <id>], for every identifier that
    is not empty and whose lower-cased form is not one of the four entries
    of the catalog, prints the message "Component not available" and the
    catalog, performs no HTTP request, creates no directory, writes no file,
    and returns (exit status 0). *)
Theorem add_command_rejects_unknown
    (rt : runtime) (componentName content : string) (config : json) (w : world) :
  truthy (declared rt (files w) "expo") = true ->
  files w !! CONFIG_FILE = Some content ->
  JSON_parse rt content = Parsed config ->
  is_empty componentName = false ->
  includes AVAILABLE_COMPONENTS (toLowerCase componentName) = false ->
  length AVAILABLE_COMPONENTS = 4%nat /\
  run rt (CmdAdd (Some componentName)) w =
    (Ret tt,
     log [ ReadFile "package.json"; ExistsSync CONFIG_FILE; ReadFile CONFIG_FILE;
           SpinnerStart "Adding component...";
           SpinnerFail (Styled red "Component not available");
           ConsoleLog [Styled blue (nl +:+ "Available components:")];
           ConsoleLog [Styled yellow "  - alert"];
           ConsoleLog [Styled yellow "  - avatar"];
           ConsoleLog [Styled yellow "  - card"];
           ConsoleLog [Styled yellow "  - toast"] ] w) /\
  exit_code (fst (run rt (CmdAdd (Some componentName)) w)) = 0%Z /\
  files (snd (run rt (CmdAdd (Some componentName)) w)) = files w.
Proof.
  intros Hexpo Hfile Hparse Hname Hout. split; [reflexivity|].
  simpl run.
  rewrite (add_action_configured rt componentName content config w Hexpo Hfile Hparse Hname).
  rewrite (addComponent_unavailable rt componentName config _ Hout).
  rewrite log_log. repeat split; reflexivity.
Qed.

Lemma add_command_rejects_unknown_witness :
  fst (run ok_runtime (CmdAdd (Some "Button")) (start project_configured)) = Ret tt /\
  files (snd (run ok_runtime (CmdAdd (Some "Button")) (start project_configured)))
    = project_configured.
Proof.
  destruct (add_command_rejects_unknown ok_runtime "Button"
              (saved_config (mkDeps true true)) (config_json (mkDeps true true))
              (start project_configured) eq_refl eq_refl eq_refl eq_refl eq_refl)
    as (_ & Hrun & _ & Hfiles).
  rewrite Hrun. split; [reflexivity|]. rewrite Hrun in Hfiles. exact Hfiles.
Defined.

(** C3, as stated, fails.  [Button] is not in the catalog, yet in a project
    without [albatroz.json] the command [add Button] prints no "Component not
    available": it initialises the project, writes [albatroz.json] and ends
    on "Please run init command first.".  And the empty identifier, which is
    not in the catalog either, gets the catalog with the usage line in a
    configured project, not the message. *)
Lemma add_unknown_is_not_always_rejected :
  includes AVAILABLE_COMPONENTS (toLowerCase "Button") = false /\
  List.filter is_spinner_fail (trace (snd add_button_unconfigured)) = [] /\
  List.filter is_write (trace (snd add_button_unconfigured))
    = [WriteFile "albatroz.json" (saved_config (mkDeps true true))] /\
  last (trace (snd add_button_unconfigured)) = Some run_init_first /\
  includes AVAILABLE_COMPONENTS (toLowerCase EmptyString) = false /\
  List.filter is_spinner_fail (trace (snd add_empty_configured)) = [] /\
  last (trace (snd add_empty_configured))
    = Some (ConsoleLog [Styled yellow "  npx @albatroz/ui add <component>"]).
Proof. vm_compute. repeat split; reflexivity. Qed.



(** ** Initialisation *)

(** C5. Whenever the manifest does not give a value for [expo] in the merged
    [dependencies] and [devDependencies] (it does not declare it, or the
    file is absent, unreadable or not a JSON object), [init] ends the process
    with exit status 1, writes no file, and leaves the files as they were:
    no [albatroz.json] is created. *)
Theorem init_requires_expo (rt : runtime) (w : world) :
  declared rt (files w) "expo" = None ->
  exists (evs : list event) (w' : world),
    run rt CmdInit w = (Exit 1, w') /\
    exit_code (fst (run rt CmdInit w)) = 1%Z /\
    trace w' = trace w ++ evs /\
    List.filter is_write evs = [] /\
    files w' = files w.
Proof.
  intros Hnone.
  assert (Hexpo : truthy (declared rt (files w) "expo") = false) by (by rewrite Hnone).
  rewrite run_init, (initializeProject_not_expo rt w Hexpo).
  eexists _, _. split; [reflexivity|]. split; [reflexivity|]. split; [reflexivity|].
  split; [|reflexivity].
  unfold validator_events. destruct (manifest_usable rt (files w)); reflexivity.
Qed.

Lemma init_requires_expo_witness :
  exists (evs : list event) (w' : world),
    run ok_runtime CmdInit (start ∅) = (Exit 1, w') /\
    exit_code (fst (run ok_runtime CmdInit (start ∅))) = 1%Z /\
    trace w' = trace (start ∅) ++ evs /\
    List.filter is_write evs = [] /\
    files w' = files (start ∅).
Proof.
  apply (init_requires_expo ok_runtime (start ∅)). reflexivity.
Defined.

(** C6, as amended.  A run of [init] in which the manifest declares
    [lucide-react-native] with a truthy value asks no question and runs no
    install command, whatever the configuration file of an earlier run
    contains.  The manifest is the only place [init] looks at. *)
Theorem init_skips_install_when_declared (rt : runtime) (w : world) :
  truthy (declared rt (files w) "lucide-react-native") = true ->
  exists (o : outcome unit) (evs : list event) (w' : world),
    run rt CmdInit w = (o, w') /\
    trace w' = trace w ++ evs /\
    List.filter is_exec evs = [] /\
    List.filter is_prompt evs = [] /\
    List.filter (is_read_of CONFIG_FILE) evs = [].
Proof.
  intros Hlucide. rewrite run_init.
  destruct (truthy (declared rt (files w) "expo")) eqn:Hexpo.
  - rewrite (initializeProject_present rt w Hexpo Hlucide).
    eexists _, _, _. repeat split; reflexivity.
  - rewrite (initializeProject_not_expo rt w Hexpo).
    eexists _, _, _. split; [reflexivity|]. split; [reflexivity|].
    unfold validator_events. destruct (manifest_usable rt (files w)); repeat split; reflexivity.
Qed.

Lemma init_skips_install_when_declared_witness :
  exists (o : outcome unit) (evs : list event) (w' : world),
    run ok_runtime CmdInit (start project_both) = (o, w') /\
    trace w' = trace (start project_both) ++ evs /\
    List.filter is_exec evs = [] /\
    List.filter is_prompt evs = [] /\
    List.filter (is_read_of CONFIG_FILE) evs = [].
Proof.
  apply (init_skips_install_when_declared ok_runtime (start project_both)). reflexivity.
Defined.

(** C6, as stated, fails: the configuration saved by a first run records the
    icon library as present, the manifest still does not declare it, and the
    second run asks for a package manager and runs the install command
    again. *)
Lemma init_twice_reinstalls :
  fst first_init = Ret tt /\
  files (snd first_init) !! CONFIG_FILE = Some (saved_config (mkDeps true true)) /\
  fst second_init = Ret tt /\
  List.filter is_prompt (trace (snd second_init)) = [Prompt prompt_question] /\
  List.filter is_exec (trace (snd second_init))
    = [ExecSync "npm install lucide-react-native"].
Proof. vm_compute. repeat split; reflexivity. Qed.

(** C7. When the install command fails during [init], [initializeProject]
    returns [false] to its caller and the process goes on (exit status 0);
    the tool has written no file: the files are exactly those the package
    manager left, so the configuration file is as it was before unless the
    package manager itself touched it; the failure and its message are
    reported. *)
Theorem init_install_failure_saves_nothing
    (rt : runtime) (w : world) (msg : string) (files' : gmap string string) :
  truthy (declared rt (files w) "expo") = true ->
  truthy (declared rt (files w) "lucide-react-native") = false ->
  child_process rt (install_line (inquirer_answer rt)) (files w) = (Some msg, files') ->
  exists (evs : list event) (w' : world),
    initializeProject rt w = (Ret false, w') /\
    exit_code (fst (run rt CmdInit w)) = 0%Z /\
    trace w' = trace w ++ evs /\
    List.filter is_exec evs = [ExecSync (install_line (inquirer_answer rt))] /\
    List.filter is_write evs = [] /\
    files w' = files' /\
    (files' !! CONFIG_FILE = files w !! CONFIG_FILE ->
     files w' !! CONFIG_FILE = files w !! CONFIG_FILE) /\
    last evs = Some (ConsoleError [Styled red (nl +:+ "Error details:"); Plain msg]).
Proof.
  intros Hexpo Hlucide Hrun.
  rewrite run_init, (initializeProject_install rt w (Some msg) files' Hexpo Hlucide Hrun).
  eexists _, _. repeat split; try reflexivity. simpl. auto.
Qed.

Lemma init_install_failure_saves_nothing_witness :
  exists (evs : list event) (w' : world),
    initializeProject failing_install (start project_expo) = (Ret false, w') /\
    exit_code (fst (run failing_install CmdInit (start project_expo))) = 0%Z /\
    trace w' = trace (start project_expo) ++ evs /\
    List.filter is_exec evs = [ExecSync "npm install lucide-react-native"] /\
    List.filter is_write evs = [] /\
    files w' = project_expo /\
    (project_expo !! CONFIG_FILE = files (start project_expo) !! CONFIG_FILE ->
     files w' !! CONFIG_FILE = files (start project_expo) !! CONFIG_FILE) /\
    last evs = Some (ConsoleError [Styled red (nl +:+ "Error details:");
                                   Plain "Command failed: npm install lucide-react-native"]).
Proof.
  apply (init_install_failure_saves_nothing failing_install (start project_expo)
           "Command failed: npm install lucide-react-native" project_expo);
    reflexivity.
Defined.

(** C10. The copy [{ ...DEFAULT_CONFIG }] refers to the same [dependencies]
    object as [DEFAULT_CONFIG]; a call of [initializeProject] that returns
    [b] leaves in that object the flags [expo = true] and
    [lucide-react-native = b], not the [false], [false] the module was loaded
    with, and these are the flags that the copy made by the next call in the
    same process reads. *)
Theorem initializeProject_mutates_DEFAULT_CONFIG
    (rt : runtime) (w w1 : world) (b : bool) :
  initializeProject rt w = (Ret b, w1) ->
  dependencies (spread_config DEFAULT_CONFIG) = dependencies DEFAULT_CONFIG /\
  initial_heap !!! dependencies DEFAULT_CONFIG = mkDeps false false /\
  heap w1 !!! dependencies DEFAULT_CONFIG = mkDeps true b /\
  heap w1 !!! dependencies DEFAULT_CONFIG <> mkDeps false false /\
  get_flags (dependencies (spread_config DEFAULT_CONFIG)) w1 = (Ret (mkDeps true b), w1).
Proof.
  intros Hcall.
  assert (Hflags : heap w1 !!! DEFAULT_DEPENDENCIES = mkDeps true b).
  { destruct (initializeProject_cases rt w)
      as [[_ Hexit]|(b' & w' & evs & _ & Hret & _ & Hheap & _)].
    - rewrite Hexit in Hcall. discriminate.
    - rewrite Hret in Hcall. injection Hcall as -> ->.
      rewrite Hheap. apply lookup_total_insert_eq. }
  split; [reflexivity|]. split; [reflexivity|]. split; [exact Hflags|].
  split.
  - simpl. rewrite Hflags. discriminate.
  - unfold get_flags. simpl. by rewrite Hflags.
Qed.

Lemma initializeProject_mutates_DEFAULT_CONFIG_witness :
  heap (snd (initializeProject ok_runtime (start project_both)))
    !!! dependencies DEFAULT_CONFIG = mkDeps true true.
Proof.
  refine (proj1 (proj2 (proj2
    (initializeProject_mutates_DEFAULT_CONFIG ok_runtime (start project_both)
       (snd (initializeProject ok_runtime (start project_both))) true _)))).
  vm_compute. reflexivity.
Defined.

(** ** The [add] command *)

(** C8, as amended.  For every invocation of [add] that passes the project
    validation, in a directory without [albatroz.json]: the command runs the
    whole of [initializeProject], prints "Please run init command first." and
    returns; it performs no HTTP request and does not read the configuration
    file in that invocation. *)
Theorem add_bootstraps_when_unconfigured
    (rt : runtime) (component : option string) (w : world) :
  truthy (declared rt (files w) "expo") = true ->
  files w !! CONFIG_FILE = None ->
  exists (b : bool) (w1 : world) (evs : list event),
    initializeProject rt (log [ReadFile "package.json"; ExistsSync CONFIG_FILE] w)
      = (Ret b, w1) /\
    trace w1 = trace w ++ [ReadFile "package.json"; ExistsSync CONFIG_FILE] ++ evs /\
    run rt (CmdAdd component) w
      = (Ret tt, log [ConsoleLog [Styled yellow (nl +:+ "Please run init command first.")]] w1) /\
    exit_code (fst (run rt (CmdAdd component) w)) = 0%Z /\
    List.filter is_http evs = [] /\
    List.filter (is_read_of CONFIG_FILE) evs = [].
Proof.
  intros Hexpo Hconfig.
  destruct (add_action_unconfigured rt component w Hexpo Hconfig) as (b & w1 & Hinit & Hadd).
  destruct (initializeProject_cases rt (log add_preamble w))
    as [[_ Hexit]|(b' & w' & evs & _ & Hret & Htrace & _ & Hevs)].
  { rewrite Hexit in Hinit. discriminate. }
  rewrite Hret in Hinit. injection Hinit as -> ->.
  exists b, w1, evs. split; [exact Hret|].
  split; [rewrite Htrace; simpl; by rewrite <- app_assoc|].
  simpl run. rewrite Hadd. split; [reflexivity|]. split; [reflexivity|].
  destruct Hevs as [->|[->|[msg ->]]]; split; reflexivity.
Qed.

Lemma add_bootstraps_when_unconfigured_witness :
  exists (b : bool) (w1 : world) (evs : list event),
    initializeProject ok_runtime
      (log [ReadFile "package.json"; ExistsSync CONFIG_FILE] (start project_expo))
      = (Ret b, w1) /\
    trace w1 = trace (start project_expo)
               ++ [ReadFile "package.json"; ExistsSync CONFIG_FILE] ++ evs /\
    run ok_runtime (CmdAdd (Some "alert")) (start project_expo)
      = (Ret tt, log [ConsoleLog [Styled yellow (nl +:+ "Please run init command first.")]] w1) /\
    exit_code (fst (run ok_runtime (CmdAdd (Some "alert")) (start project_expo))) = 0%Z /\
    List.filter is_http evs = [] /\
    List.filter (is_read_of CONFIG_FILE) evs = [].
Proof.
  apply (add_bootstraps_when_unconfigured ok_runtime (Some "alert") (start project_expo));
    reflexivity.
Defined.

(** C8, as stated, fails: in a directory with neither [albatroz.json] nor
    [package.json], [add alert] stops at the project validation with exit
    status 1; initialisation does not run and the invitation to run [init]
    is not printed. *)
Lemma add_without_manifest_exits :
  (∅ : gmap string string) !! CONFIG_FILE = None /\
  invoke ok_runtime (CmdAdd (Some "alert")) ∅ =
    (Exit 1,
     mkWorld ∅ initial_heap
       [ ReadFile "package.json";
         ConsoleError [Styled red (nl +:+ "Error: Could not find package.json")];
         ConsoleLog [Styled yellow
                       (nl +:+ "Please make sure you are in the root of your project.")] ]).
Proof. split; reflexivity. Qed.

(** C2, as amended.  The manifest declares [expo] and
    [lucide-react-native]; [init] asks no question and saves the
    configuration; then [add alert], whose GET of [<baseUrl>/alert.tsx] is
    answered 200 with the body [export const Alert = ...;], creates the file
    [src/components/ui/alert.tsx] (lower-case) under the working directory
    with exactly that body, prints the success message and ends with exit
    status 0. *)
Theorem add_alert_scenario (rt : runtime) :
  JSON_parse rt manifest_both = Parsed manifest_both_json ->
  JSON_parse rt (saved_config (mkDeps true true)) = Parsed (config_json (mkDeps true true)) ->
  http rt (baseUrl DEFAULT_CONFIG +:+ "/alert.tsx") = Reply 200 alert_body ->
  exists w1 w2 : world,
    invoke rt CmdInit project_both = (Ret tt, w1) /\
    List.filter is_prompt (trace w1) = [] /\
    invoke rt (CmdAdd (Some "alert")) (files w1) = (Ret tt, w2) /\
    exit_code (fst (invoke rt (CmdAdd (Some "alert")) (files w1))) = 0%Z /\
    List.filter is_http (trace w2) = [HttpGet (baseUrl DEFAULT_CONFIG +:+ "/alert.tsx")] /\
    List.filter is_write (trace w2)
      = [WriteFile (path_join [process_cwd rt; "src"; "components"; "ui"; "alert.tsx"])
                   alert_body] /\
    files w2 !! path_join [process_cwd rt; "src"; "components"; "ui"; "alert.tsx"]
      = Some alert_body /\
    List.filter (fun e => match e with SpinnerSucceed _ => true | _ => false end) (trace w2)
      = [SpinnerSucceed (Styled green "Component alert added successfully!")].
Proof.
  intros Hmanifest Hconfig Hreply.
  assert (Hdeclared : forall fs k,
            fs !! "package.json" = Some manifest_both ->
            declared rt fs k = obj_get k [("expo", JStr "1.0.0");
                                          ("lucide-react-native", JStr "2.0.0")]).
  { intros fs k Hfs. unfold declared, manifest. rewrite Hfs, Hmanifest. reflexivity. }
  assert (Hinit : invoke rt CmdInit project_both =
                  (Ret tt,
                   mkWorld (<[CONFIG_FILE := saved_config (mkDeps true true)]> project_both)
                           (<[DEFAULT_DEPENDENCIES := mkDeps true true]> initial_heap)
                           present_events)).
  { unfold invoke. rewrite run_init, initializeProject_present; [reflexivity| |];
      simpl; by rewrite Hdeclared. }
  eexists _, _. split; [exact Hinit|]. split; [reflexivity|]. simpl files.
  set (fs := <[CONFIG_FILE := saved_config (mkDeps true true)]> project_both).
  assert (Hadd : invoke rt (CmdAdd (Some "alert")) fs =
                 addComponent rt "alert" (config_json (mkDeps true true))
                   (log add_preamble_read (start fs))).
  { unfold invoke. simpl run.
    apply (add_action_configured rt "alert" (saved_config (mkDeps true true))).
    - simpl. by rewrite Hdeclared.
    - reflexivity.
    - exact Hconfig.
    - reflexivity. }
  rewrite Hadd.
  rewrite addComponent_in_catalog by done.
  rewrite (request_base_record _ (baseUrl DEFAULT_CONFIG)) by reflexivity.
  change (request_url (baseUrl DEFAULT_CONFIG) "alert")
    with (baseUrl DEFAULT_CONFIG +:+ "/alert.tsx").
  rewrite Hreply. simpl fetched. cbv iota.
  split; [reflexivity|]. split; [reflexivity|]. split; [reflexivity|].
  split; [reflexivity|]. split; [|reflexivity].
  simpl files. apply lookup_insert_eq.
Qed.

Lemma add_alert_scenario_witness :
  exists w1 w2 : world,
    invoke ok_runtime CmdInit project_both = (Ret tt, w1) /\
    List.filter is_prompt (trace w1) = [] /\
    invoke ok_runtime (CmdAdd (Some "alert")) (files w1) = (Ret tt, w2) /\
    exit_code (fst (invoke ok_runtime (CmdAdd (Some "alert")) (files w1))) = 0%Z /\
    List.filter is_http (trace w2) = [HttpGet (baseUrl DEFAULT_CONFIG +:+ "/alert.tsx")] /\
    List.filter is_write (trace w2)
      = [WriteFile "/project/src/components/ui/alert.tsx" alert_body] /\
    files w2 !! "/project/src/components/ui/alert.tsx" = Some alert_body /\
    List.filter (fun e => match e with SpinnerSucceed _ => true | _ => false end) (trace w2)
      = [SpinnerSucceed (Styled green "Component alert added successfully!")].
Proof.
  apply (add_alert_scenario ok_runtime); reflexivity.
Defined.

(** C2, as stated, fails: in that scenario no file [Alert.tsx] with a
    capital A exists afterwards; the one file written is [alert.tsx]. *)
Lemma add_alert_no_capital_file :
  fst after_add_alert = Ret tt /\
  files (snd after_add_alert) !! "/project/src/components/ui/Alert.tsx" = None /\
  List.filter is_write (trace (snd after_add_alert))
    = [WriteFile "/project/src/components/ui/alert.tsx" alert_body].
Proof. vm_compute. repeat split; reflexivity. Qed.

(** ** Names *)

Lemma lower_unit_of_ascii (c : ascii) :
  lower_unit (N_of_ascii c) = N_of_ascii (lower_char c).
Proof. destruct c as [[] [] [] [] [] [] [] []]; reflexivity. Qed.

Lemma lower_char_ascii (c : ascii) :
  (N_of_ascii c <? 128)%N = true -> (N_of_ascii (lower_char c) <? 128)%N = true.
Proof. destruct c as [[] [] [] [] [] [] [] []]; intros H; solve [reflexivity | discriminate H]. Qed.

(** Without a sigma the context plays no part. *)
Lemma lower_units_ascii (s : list N) (after_cased : bool) :
  ascii_only s = true -> lower_units after_cased s = map lower_unit s.
Proof.
  revert after_cased. induction s as [|u rest IH]; intros after_cased Hascii; [done|].
  simpl in Hascii. apply andb_true_iff in Hascii as [Hu Hrest].
  simpl. rewrite (IH _ Hrest).
  replace (u =? capital_sigma)%N with false; [done|].
  symmetry. apply N.eqb_neq. apply N.ltb_lt in Hu. unfold capital_sigma. lia.
Qed.

Lemma units_of_app (s t : string) : units_of (s +:+ t) = units_of s ++ units_of t.
Proof.
  induction s as [|c s IH]; [done|].
  change (String c s +:+ t) with (String c (s +:+ t)). simpl. by rewrite IH.
Qed.

Lemma units_of_toLowerCase (s : string) :
  map lower_unit (units_of s) = units_of (toLowerCase s).
Proof.
  induction s as [|c s IH]; [done|]. simpl. by rewrite lower_unit_of_ascii, IH.
Qed.

Lemma ascii_only_toLowerCase (s : string) :
  ascii_only (units_of s) = true -> ascii_only (units_of (toLowerCase s)) = true.
Proof.
  induction s as [|c s IH]; [done|]. simpl. intros H.
  apply andb_true_iff in H as [Hc Hs].
  by rewrite (lower_char_ascii c Hc), (IH Hs).
Qed.

Lemma js_toLowerCase_ascii (s : string) :
  ascii_only (units_of s) = true ->
  js_toLowerCase (units_of s) = units_of (toLowerCase s).
Proof.
  intros Hascii. unfold js_toLowerCase.
  by rewrite (lower_units_ascii _ _ Hascii), units_of_toLowerCase.
Qed.

Lemma js_formatComponentName_ascii (s : string) :
  ascii_only (units_of s) = true ->
  js_formatComponentName (units_of s) = units_of (toLowerCase s).
Proof.
  intros Hascii. destruct s as [|c rest]; [done|].
  simpl in Hascii. apply andb_true_iff in Hascii as [Hc Hrest].
  change (js_formatComponentName (units_of (String c rest)))
    with (js_toLowerCase [N_of_ascii c] ++ js_toLowerCase (units_of rest)).
  unfold js_toLowerCase.
  rewrite (lower_units_ascii [N_of_ascii c] false) by (simpl; by rewrite Hc).
  rewrite (lower_units_ascii (units_of rest) false Hrest).
  simpl. by rewrite lower_unit_of_ascii, units_of_toLowerCase.
Qed.

(** C9, as amended.  For every ASCII name, [formatComponentName] is the
    lower-casing of the whole name, as JavaScript computes it on the code
    units of the name, and it is what the 8-bit model of the program
    computes; hence on ASCII names it is idempotent, and it maps the empty
    string to itself.  The one file that [addComponent] may write is named
    after the lower-cased identifier, with no upper-case letter in it; the
    catalog is displayed in lower case. *)
Theorem formatComponentName_lowercases_ascii (name : string) :
  ascii_only (units_of name) = true ->
  js_formatComponentName (units_of name) = js_toLowerCase (units_of name) /\
  js_formatComponentName (units_of name) = units_of (formatComponentName name) /\
  js_formatComponentName (js_formatComponentName (units_of name))
    = js_formatComponentName (units_of name) /\
  js_formatComponentName [] = [] /\
  (forall (rt : runtime) (config : json) (w : world),
     exists (evs : list event) (w' : world),
       addComponent rt name config w = (Ret tt, w') /\
       trace w' = trace w ++ evs /\
       (List.filter is_write evs = [] \/
        exists body : string,
          List.filter is_write evs
            = [WriteFile (path_join [process_cwd rt; "src"; "components"; "ui";
                                     toLowerCase name +:+ ".tsx"]) body]) /\
       no_upper (formatComponentName name +:+ ".tsx") = true) /\
  (forall w : world,
     list_catalog w =
       (Ret tt,
        log (map (fun comp => ConsoleLog [Styled yellow ("  - " +:+ toLowerCase comp)])
                 AVAILABLE_COMPONENTS) w)) /\
  forallb no_upper (map formatComponentName AVAILABLE_COMPONENTS) = true.
Proof.
  intros Hascii.
  assert (Hformat : js_formatComponentName (units_of name)
                    = units_of (formatComponentName name))
    by (rewrite formatComponentName_toLowerCase; by apply js_formatComponentName_ascii).
  split; [by rewrite js_formatComponentName_ascii, js_toLowerCase_ascii|].
  split; [exact Hformat|].
  split.
  { rewrite Hformat, formatComponentName_toLowerCase.
    rewrite js_formatComponentName_ascii by (by apply ascii_only_toLowerCase).
    by rewrite toLowerCase_idempotent. }
  split; [reflexivity|].
  split; [|split; [exact list_catalog_run|reflexivity]].
  intros rt config w.
  assert (Hlower : no_upper (formatComponentName name +:+ ".tsx") = true)
    by (rewrite formatComponentName_toLowerCase, no_upper_app, toLowerCase_no_upper;
        reflexivity).
  destruct (includes AVAILABLE_COMPONENTS (toLowerCase name)) eqn:Hin.
  - rewrite addComponent_in_catalog by done.
    destruct (request_base config) as [base|msg]; [destruct (fetched _) as [body|msg]|].
    + eexists _, _. split; [reflexivity|]. split; [reflexivity|].
      split; [right; by exists body|done].
    + eexists _, _. split; [reflexivity|]. split; [reflexivity|]. split; [by left|done].
    + eexists _, _. split; [reflexivity|]. split; [reflexivity|]. split; [by left|done].
  - rewrite addComponent_unavailable by done.
    eexists _, _. split; [reflexivity|]. split; [reflexivity|]. split; [by left|done].
Qed.

Lemma formatComponentName_lowercases_ascii_witness :
  js_formatComponentName (units_of "Alert") = js_toLowerCase (units_of "Alert") /\
  js_formatComponentName (units_of "Alert") = units_of "alert".
Proof.
  destruct (formatComponentName_lowercases_ascii "Alert" eq_refl) as (H1 & H2 & _).
  split; [exact H1|exact H2].
Defined.

(** C9, as stated, fails on a name that is not ASCII: for the letter A
    followed by a capital sigma, [toLowerCase] on the whole name gives the
    final sigma, since a letter comes before it, while [formatComponentName]
    lower-cases the sigma without the A in front and gives the small
    sigma. *)
Lemma formatComponentName_differs_on_final_sigma :
  js_toLowerCase a_sigma = [97%N; final_sigma] /\
  js_formatComponentName a_sigma = [97%N; small_sigma] /\
  js_formatComponentName a_sigma <> js_toLowerCase a_sigma.
Proof. split; [reflexivity|]. split; [reflexivity|]. discriminate. Qed.

(** * Further properties *)

(** ** Values *)

Lemma obj_get_app (k : string) (a b : list (string * json)) :
  obj_get k (a ++ b) =
    match obj_get k b with
    | Some v => Some v
    | None => obj_get k a
    end.
Proof.
  induction a as [|[k' v] a IH]; simpl.
  - by destruct (obj_get k b).
  - rewrite IH. destruct (obj_get k b); [done|]. reflexivity.
Qed.

Lemma last_char_app (s t : string) :
  last_char (s +:+ t) =
    match last_char t with
    | Some c => Some c
    | None => last_char s
    end.
Proof.
  induction s as [|c s IH].
  - change (EmptyString +:+ t) with t. by destruct (last_char t).
  - change (String c s +:+ t) with (String c (s +:+ t)). simpl.
    rewrite IH. by destruct (last_char t).
Qed.

Lemma last_char_path_join2 (a b : string) (c : ascii) :
  last_char b = Some c -> last_char (path_join2 a b) = Some c.
Proof.
  intros Hb. unfold path_join2.
  destruct (is_empty a); [done|].
  destruct (ends_with_slash a); rewrite !last_char_app, ?Hb; reflexivity.
Qed.

Lemma last_char_target_path (rt : runtime) (name : string) :
  last_char (target_path rt (name +:+ ".tsx")) = Some "x"%char.
Proof.
  unfold target_path, path_join. simpl.
  apply last_char_path_join2. rewrite last_char_app. reflexivity.
Qed.

Lemma target_path_not_config (rt : runtime) (name : string) :
  target_path rt (name +:+ ".tsx") <> CONFIG_FILE.
Proof.
  intros Heq. pose proof (last_char_target_path rt name) as Hlast.
  rewrite Heq in Hlast. discriminate.
Qed.

Lemma target_path_not_manifest (rt : runtime) (name : string) :
  target_path rt (name +:+ ".tsx") <> "package.json".
Proof.
  intros Heq. pose proof (last_char_target_path rt name) as Hlast.
  rewrite Heq in Hlast. discriminate.
Qed.

(** ** The [add] command, remaining cases *)

Section AddCases.

Variable rt : runtime.

(** The configuration file is not JSON: the error reaches the handler of
    the command. *)
Lemma add_action_malformed (component : option string) (content msg : string) (w : world) :
  truthy (declared rt (files w) "expo") = true ->
  files w !! CONFIG_FILE = Some content ->
  JSON_parse rt content = SyntaxError msg ->
  add_action rt component w =
    (Ret tt,
     log (add_preamble_read ++ [ConsoleError [Styled red (nl +:+ "Error:"); Plain msg]]) w).
Proof.
  intros Hexpo Hfile Hparse.
  unfold add_action, try_catch, bind.
  rewrite checkExpoProject_run, Hexpo.
  unfold ensureConfig, bind, existsSync, bind. rewrite emit_run. simpl.
  rewrite Hfile. rewrite bool_decide_eq_true_2 by eauto. simpl.
  unfold readConfig, bind, readFileSync, bind. rewrite emit_run. simpl.
  rewrite Hfile. unfold parse. rewrite Hparse. simpl.
  unfold console_error. rewrite emit_run, !log_log. reflexivity.
Qed.

(** No component is named: the catalog and the usage are printed. *)
Lemma add_action_usage (component : option string) (content : string) (config : json)
    (w : world) :
  truthy (declared rt (files w) "expo") = true ->
  files w !! CONFIG_FILE = Some content ->
  JSON_parse rt content = Parsed config ->
  no_component component = true ->
  add_action rt component w = (Ret tt, log (add_preamble_read ++ usage_events) w).
Proof.
  intros Hexpo Hfile Hparse Hnone.
  unfold add_action, try_catch, bind.
  rewrite checkExpoProject_run, Hexpo.
  unfold ensureConfig, bind, existsSync, bind. rewrite emit_run. simpl.
  rewrite Hfile. rewrite bool_decide_eq_true_2 by eauto. simpl.
  unfold readConfig, bind, readFileSync, bind. rewrite emit_run. simpl.
  rewrite Hfile. unfold parse. rewrite Hparse. simpl. rewrite Hnone.
  unfold console_log. rewrite emit_run. simpl. same_world.
Qed.

(** Everything [addComponent] can do to the world. *)
Lemma addComponent_effects (componentName : string) (config : json) (w : world) :
  exists (evs : list event) (w' : world),
    addComponent rt componentName config w = (Ret tt, w') /\
    trace w' = trace w ++ evs /\
    heap w' = heap w /\
    List.filter is_prompt evs = [] /\
    List.filter is_exec evs = [] /\
    List.filter (is_read_of CONFIG_FILE) evs = [] /\
    (files w' = files w \/
     exists body : string,
       files w' = <[target_path rt (toLowerCase componentName +:+ ".tsx") := body]> (files w)).
Proof.
  destruct (includes AVAILABLE_COMPONENTS (toLowerCase componentName)) eqn:Hin.
  - rewrite addComponent_in_catalog by done.
    destruct (request_base config) as [base|msg]; [destruct (fetched _) as [body|msg]|];
      eexists _, _; repeat split; eauto.
  - rewrite addComponent_unavailable by done.
    eexists _, _; repeat split; eauto.
Qed.

(** With a configuration file in place, [add] goes one of three ways. *)
Lemma add_action_with_config (component : option string) (content : string) (w : world) :
  truthy (declared rt (files w) "expo") = true ->
  files w !! CONFIG_FILE = Some content ->
  exists (evs : list event) (w' : world),
    add_action rt component w = (Ret tt, w') /\
    trace w' = trace w ++ add_preamble_read ++ evs /\
    heap w' = heap w /\
    List.filter is_prompt evs = [] /\
    List.filter is_exec evs = [] /\
    (files w' = files w \/
     exists (name body : string),
       files w' = <[target_path rt (name +:+ ".tsx") := body]> (files w)).
Proof.
  intros Hexpo Hfile.
  destruct (JSON_parse rt content) as [config|msg] eqn:Hparse.
  - destruct (no_component component) eqn:Hnone.
    + rewrite (add_action_usage component content config w) by done.
      eexists _, _. split; [reflexivity|]. split; [reflexivity|].
      repeat split; eauto.
    + destruct component as [name|]; [|discriminate]. simpl in Hnone.
      rewrite (add_action_configured rt name content config w) by done.
      destruct (addComponent_effects name config (log add_preamble_read w))
        as (evs & w' & -> & Htrace & Hheap & Hprompt & Hexec & _ & Hfiles).
      exists evs, w'. split; [reflexivity|].
      split; [rewrite Htrace; simpl; by rewrite <- app_assoc|].
      repeat split; eauto.
      destruct Hfiles as [->|[body ->]]; [by left|right; eauto].
  - rewrite (add_action_malformed component content msg w) by done.
    eexists _, _. split; [reflexivity|]. split; [reflexivity|].
    repeat split; eauto.
Qed.

(** Past the validation, [add] always returns. *)
Lemma add_action_returns (component : option string) (w : world) :
  truthy (declared rt (files w) "expo") = true ->
  exists w', add_action rt component w = (Ret tt, w').
Proof.
  intros Hexpo.
  destruct (files w !! CONFIG_FILE) as [content|] eqn:Hfile.
  - destruct (add_action_with_config component content w Hexpo Hfile)
      as (evs & w' & Hrun & _). eauto.
  - destruct (add_action_unconfigured rt component w Hexpo Hfile)
      as (b & w1 & _ & Hrun). eauto.
Qed.

End AddCases.

(** ** Initialisation, remaining facts *)

Lemma initializeProject_true_saved (rt : runtime) (w w1 : world) :
  initializeProject rt w = (Ret true, w1) ->
  files w1 !! CONFIG_FILE = Some (saved_config (mkDeps true true)).
Proof.
  intros Hcall.
  destruct (truthy (declared rt (files w) "expo")) eqn:Hexpo.
  - destruct (truthy (declared rt (files w) "lucide-react-native")) eqn:Hlucide.
    + rewrite (initializeProject_present rt w Hexpo Hlucide) in Hcall.
      injection Hcall as <-. apply lookup_insert_eq.
    + destruct (child_process rt (install_line (inquirer_answer rt)) (files w))
        as [failure files'] eqn:Hrun.
      rewrite (initializeProject_install rt w failure files' Hexpo Hlucide Hrun) in Hcall.
      destruct failure; [discriminate|].
      injection Hcall as <-. apply lookup_insert_eq.
  - rewrite (initializeProject_not_expo rt w Hexpo) in Hcall. discriminate.
Qed.

Lemma ensureConfig_missing (rt : runtime) (w w1 : world) (b : bool) :
  files w !! CONFIG_FILE = None ->
  initializeProject rt (log [ExistsSync CONFIG_FILE] w) = (Ret b, w1) ->
  ensureConfig rt w = (Ret false, w1).
Proof.
  intros Hfile Hinit.
  unfold ensureConfig, bind, existsSync, bind. rewrite emit_run. simpl.
  rewrite Hfile. rewrite bool_decide_eq_false_2 by (intros [? ?]; done). simpl.
  by rewrite Hinit.
Qed.

(** ** The [add] command *)

(** X1. In a valid project whose configuration file parses, [add] without a
    component (or with an empty one) prints the catalog and the usage line
    and returns: no request, no write, the files are as before. *)
Theorem add_without_component_lists_catalog
    (rt : runtime) (component : option string) (content : string) (config : json)
    (w : world) :
  truthy (declared rt (files w) "expo") = true ->
  files w !! CONFIG_FILE = Some content ->
  JSON_parse rt content = Parsed config ->
  no_component component = true ->
  run rt (CmdAdd component) w =
    (Ret tt,
     log [ ReadFile "package.json"; ExistsSync CONFIG_FILE; ReadFile CONFIG_FILE;
           ConsoleLog [Styled blue (nl +:+ "Available components:")];
           ConsoleLog [Styled yellow "  - alert"];
           ConsoleLog [Styled yellow "  - avatar"];
           ConsoleLog [Styled yellow "  - card"];
           ConsoleLog [Styled yellow "  - toast"];
           ConsoleLog [Styled gray (nl +:+ "Usage:")];
           ConsoleLog [Styled yellow "  npx @albatroz/ui add <component>"] ] w).
Proof.
  intros Hexpo Hfile Hparse Hnone. simpl run.
  by rewrite (add_action_usage rt component content config w).
Qed.

Lemma add_without_component_lists_catalog_witness :
  fst (run ok_runtime (CmdAdd None) (start project_configured)) = Ret tt.
Proof.
  rewrite (add_without_component_lists_catalog ok_runtime None
             (saved_config (mkDeps true true)) (config_json (mkDeps true true))
             (start project_configured)); reflexivity.
Defined.

(** X2. In a valid project whose configuration file is not JSON, [add]
    prints "Error:" with the message of the parser and returns, whatever the
    component: no request, no write, exit status 0. *)
Theorem add_with_malformed_config
    (rt : runtime) (component : option string) (content msg : string) (w : world) :
  truthy (declared rt (files w) "expo") = true ->
  files w !! CONFIG_FILE = Some content ->
  JSON_parse rt content = SyntaxError msg ->
  run rt (CmdAdd component) w =
    (Ret tt,
     log [ ReadFile "package.json"; ExistsSync CONFIG_FILE; ReadFile CONFIG_FILE;
           ConsoleError [Styled red (nl +:+ "Error:"); Plain msg] ] w).
Proof.
  intros Hexpo Hfile Hparse. simpl run.
  by rewrite (add_action_malformed rt component content msg w).
Qed.

Lemma add_with_malformed_config_witness :
  fst (run ok_runtime (CmdAdd (Some "alert")) (start project_malformed)) = Ret tt.
Proof.
  rewrite (add_with_malformed_config ok_runtime (Some "alert") "{ baseUrl: "
             "Unexpected token" (start project_malformed)); reflexivity.
Defined.

(** X3. The exit status of every command: the process ends with status 1
    exactly when the command is unknown or the manifest gives no truthy
    value for [expo]; in every other case the command returns (status 0),
    and no exception ever escapes. *)
Theorem exit_status_of_commands (rt : runtime) (cmd : command) (w : world) :
  fst (run rt cmd w) =
    if is_unknown cmd || negb (truthy (declared rt (files w) "expo"))
    then Exit 1 else Ret tt.
Proof.
  destruct cmd as [|component|]; simpl is_unknown; simpl orb; [| |reflexivity].
  - rewrite run_init.
    destruct (initializeProject_cases rt w)
      as [[Hexpo Hexit]|(b & w' & evs & Hexpo & Hret & _)].
    + by rewrite Hexit, Hexpo.
    + by rewrite Hret, Hexpo.
  - simpl run. destruct (truthy (declared rt (files w) "expo")) eqn:Hexpo.
    + destruct (add_action_returns rt component w Hexpo) as [w' Hrun].
      by rewrite Hrun.
    + by rewrite (add_action_not_expo rt component w Hexpo).
Qed.

(** X4. With a configuration file in place, [add] never asks for a package
    manager and never runs one, and it leaves [albatroz.json] and
    [package.json] as they are, whatever the component and the answer of the
    network. *)
Theorem add_with_config_never_installs
    (rt : runtime) (component : option string) (content : string) (w : world) :
  files w !! CONFIG_FILE = Some content ->
  exists (o : outcome unit) (evs : list event) (w' : world),
    run rt (CmdAdd component) w = (o, w') /\
    trace w' = trace w ++ evs /\
    List.filter is_prompt evs = [] /\
    List.filter is_exec evs = [] /\
    files w' !! CONFIG_FILE = Some content /\
    files w' !! "package.json" = files w !! "package.json".
Proof.
  intros Hfile. simpl run.
  destruct (truthy (declared rt (files w) "expo")) eqn:Hexpo.
  - destruct (add_action_with_config rt component content w Hexpo Hfile)
      as (evs & w' & -> & Htrace & _ & Hprompt & Hexec & Hfiles).
    exists (Ret tt), (add_preamble_read ++ evs), w'.
    split; [reflexivity|]. split; [exact Htrace|].
    split; [exact Hprompt|]. split; [exact Hexec|].
    destruct Hfiles as [->|(name & body & ->)]; [done|].
    rewrite !lookup_insert_ne
      by auto using target_path_not_config, target_path_not_manifest.
    done.
  - rewrite (add_action_not_expo rt component w Hexpo).
    eexists _, _, _. split; [reflexivity|]. split; [reflexivity|].
    unfold validator_events. destruct (manifest_usable rt (files w)); done.
Qed.

Lemma add_with_config_never_installs_witness :
  exists (o : outcome unit) (evs : list event) (w' : world),
    run ok_runtime (CmdAdd (Some "toast")) (start project_configured) = (o, w') /\
    trace w' = trace (start project_configured) ++ evs /\
    List.filter is_prompt evs = [] /\
    List.filter is_exec evs = [] /\
    files w' !! CONFIG_FILE = Some (saved_config (mkDeps true true)) /\
    files w' !! "package.json" = files (start project_configured) !! "package.json".
Proof.
  apply (add_with_config_never_installs ok_runtime (Some "toast")
           (saved_config (mkDeps true true)) (start project_configured)).
  reflexivity.
Defined.

(** ** The validator and the dependency check *)

(** X5. When the manifest has an object for [devDependencies] that gives a
    value to the key, [checkDependency] answers with the truthiness of that
    value, whatever [dependencies] says: [devDependencies] come last in the
    merge. *)
Theorem checkDependency_devDependencies_win
    (rt : runtime) (dependency content : string) (members dev : list (string * json))
    (v : json) (w : world) :
  files w !! "package.json" = Some content ->
  JSON_parse rt content = Parsed (JObj members) ->
  obj_get "devDependencies" members = Some (JObj dev) ->
  obj_get dependency dev = Some v ->
  checkDependency rt dependency w
    = (Ret (truthy (Some v)), log [ReadFile "package.json"] w).
Proof.
  intros Hfile Hparse Hdev Hkey.
  rewrite checkDependency_run. unfold declared, manifest.
  rewrite Hfile, Hparse, Hdev, obj_get_app. simpl spread. by rewrite Hkey.
Qed.

Lemma checkDependency_devDependencies_win_witness :
  checkDependency (manifest_runtime manifest_dev_wins (NoReply "offline")) "expo"
    (start project_both)
  = (Ret true, log [ReadFile "package.json"] (start project_both)).
Proof.
  exact (checkDependency_devDependencies_win
           (manifest_runtime manifest_dev_wins (NoReply "offline")) "expo" manifest_both
           _ [("expo", JStr "~50.0.0")] (JStr "~50.0.0") (start project_both)
           eq_refl eq_refl eq_refl eq_refl).
Defined.

(** X6. [checkDependency] never throws and never ends the process: when the
    manifest is absent, is not JSON or is [null], it returns [false] after
    the one attempt to read the file. *)
Theorem checkDependency_false_without_manifest
    (rt : runtime) (dependency : string) (w : world) :
  manifest_usable rt (files w) = false ->
  checkDependency rt dependency w = (Ret false, log [ReadFile "package.json"] w).
Proof.
  intros Husable. rewrite checkDependency_run.
  unfold declared. unfold manifest_usable in Husable.
  destruct (manifest rt (files w)) as [[| | | | |]|]; done.
Qed.

Lemma checkDependency_false_without_manifest_witness :
  checkDependency ok_runtime "lucide-react-native" (start project_bad_manifest)
  = (Ret false, log [ReadFile "package.json"] (start project_bad_manifest)).
Proof.
  apply (checkDependency_false_without_manifest ok_runtime "lucide-react-native"
           (start project_bad_manifest)).
  reflexivity.
Defined.

(** X7. A manifest that exists but is not JSON, or is the JSON [null], is
    reported by the validator as a missing file, "Could not find
    package.json", and the process ends with status 1. *)
Theorem validator_reports_invalid_manifest_as_missing
    (rt : runtime) (content : string) (w : world) :
  files w !! "package.json" = Some content ->
  (JSON_parse rt content = Parsed JNull \/
   exists msg, JSON_parse rt content = SyntaxError msg) ->
  checkExpoProject rt w =
    (Exit 1,
     log [ ReadFile "package.json";
           ConsoleError [Styled red (nl +:+ "Error: Could not find package.json")];
           ConsoleLog [Styled yellow
                         (nl +:+ "Please make sure you are in the root of your project.")] ]
         w).
Proof.
  intros Hfile Hparse. rewrite checkExpoProject_run.
  unfold declared, validator_events, manifest_usable, manifest. rewrite Hfile.
  destruct Hparse as [->|[msg ->]]; reflexivity.
Qed.

Lemma validator_reports_invalid_manifest_as_missing_witness :
  fst (checkExpoProject ok_runtime (start project_bad_manifest)) = Exit 1.
Proof.
  rewrite (validator_reports_invalid_manifest_as_missing ok_runtime "{ dependencies: "
             (start project_bad_manifest)).
  - reflexivity.
  - reflexivity.
  - right. exists "Unexpected token". reflexivity.
Defined.

(** X8. Declaring [expo] is not enough: when the merged value is falsy
    ([false], [0], the empty string or [null]) the validator prints "This is
    not an Expo project" with its advice and ends the process with status
    1. *)
Theorem validator_rejects_falsy_expo (rt : runtime) (v : json) (w : world) :
  declared rt (files w) "expo" = Some v ->
  truthy (Some v) = false ->
  checkExpoProject rt w =
    (Exit 1,
     log [ ReadFile "package.json";
           ConsoleError [Styled red (nl +:+ "Error: This is not an Expo project")];
           ConsoleLog [Styled yellow (nl +:+ "At this moment, we only support Expo projects.")];
           ConsoleLog [Styled gray (nl +:+ "Please create a new project using:")];
           ConsoleLog [Styled blue (nl +:+ "  npx create-expo-app@latest")] ] w).
Proof.
  intros Hdeclared Hfalsy. rewrite checkExpoProject_run, Hdeclared, Hfalsy.
  unfold validator_events, manifest_usable. unfold declared in Hdeclared.
  destruct (manifest rt (files w)) as [[| | | | |]|]; done.
Qed.

Lemma validator_rejects_falsy_expo_witness :
  fst (checkExpoProject (manifest_runtime manifest_expo_false (NoReply "offline"))
         (start project_both)) = Exit 1.
Proof.
  rewrite (validator_rejects_falsy_expo
             (manifest_runtime manifest_expo_false (NoReply "offline")) (JBool false)
             (start project_both)); reflexivity.
Defined.

(** ** Initialisation *)

(** X9. Whatever the project, [initializeProject] writes at most one file,
    and only when it returns [true]: [albatroz.json] with the default base
    URL and both flags [true].  The saved flags never differ from one
    project to another. *)
Theorem init_writes_one_fixed_config (rt : runtime) (w : world) :
  exists (o : outcome bool) (evs : list event) (w' : world),
    initializeProject rt w = (o, w') /\
    trace w' = trace w ++ evs /\
    ((o = Ret true /\
      List.filter is_write evs
        = [WriteFile CONFIG_FILE (stringify_config (baseUrl DEFAULT_CONFIG) (mkDeps true true))] /\
      files w' !! CONFIG_FILE
        = Some (stringify_config (baseUrl DEFAULT_CONFIG) (mkDeps true true)))
     \/
     (o <> Ret true /\ List.filter is_write evs = [])).
Proof.
  destruct (truthy (declared rt (files w) "expo")) eqn:Hexpo.
  - destruct (truthy (declared rt (files w) "lucide-react-native")) eqn:Hlucide.
    + rewrite (initializeProject_present rt w Hexpo Hlucide).
      eexists _, _, _. split; [reflexivity|]. split; [reflexivity|]. left.
      split; [reflexivity|]. split; [reflexivity|]. apply lookup_insert_eq.
    + destruct (child_process rt (install_line (inquirer_answer rt)) (files w))
        as [failure files'] eqn:Hrun.
      rewrite (initializeProject_install rt w failure files' Hexpo Hlucide Hrun).
      destruct failure as [msg|].
      * eexists _, _, _. split; [reflexivity|]. split; [reflexivity|]. right.
        split; [discriminate|reflexivity].
      * eexists _, _, _. split; [reflexivity|]. split; [reflexivity|]. left.
        split; [reflexivity|]. split; [reflexivity|]. apply lookup_insert_eq.
  - rewrite (initializeProject_not_expo rt w Hexpo).
    eexists _, _, _. split; [reflexivity|]. split; [reflexivity|]. right.
    split; [discriminate|].
    unfold validator_events. destruct (manifest_usable rt (files w)); reflexivity.
Qed.



(** X11. [initializeProject] performs no HTTP request, creates no directory
    and never reads [albatroz.json]: an existing configuration has no
    influence on it. *)
Theorem init_never_fetches (rt : runtime) (w : world) :
  exists (o : outcome bool) (evs : list event) (w' : world),
    initializeProject rt w = (o, w') /\
    trace w' = trace w ++ evs /\
    List.filter is_http evs = [] /\
    List.filter is_mkdir evs = [] /\
    List.filter (is_read_of CONFIG_FILE) evs = [].
Proof.
  destruct (initializeProject_cases rt w)
    as [[_ ->]|(b & w' & evs & _ & -> & Htrace & _ & Hevs)].
  - eexists _, _, _. split; [reflexivity|]. split; [reflexivity|].
    unfold validator_events. destruct (manifest_usable rt (files w)); done.
  - exists (Ret b), evs, w'. split; [reflexivity|]. split; [exact Htrace|].
    destruct Hevs as [->|[->|[msg ->]]]; done.
Qed.

(** X12. The flags left in [DEFAULT_CONFIG.dependencies] by an earlier call
    do not change what [initializeProject] does: from two worlds that differ
    only in the heap it gives the same result, the same files and the same
    events. *)
Theorem init_ignores_earlier_flags
    (rt : runtime) (fs : gmap string string) (h1 h2 : gmap loc deps_obj)
    (t : list event) :
  fst (initializeProject rt (mkWorld fs h1 t))
    = fst (initializeProject rt (mkWorld fs h2 t)) /\
  files (snd (initializeProject rt (mkWorld fs h1 t)))
    = files (snd (initializeProject rt (mkWorld fs h2 t))) /\
  trace (snd (initializeProject rt (mkWorld fs h1 t)))
    = trace (snd (initializeProject rt (mkWorld fs h2 t))).
Proof.
  destruct (truthy (declared rt fs "expo")) eqn:Hexpo.
  - destruct (truthy (declared rt fs "lucide-react-native")) eqn:Hlucide.
    + rewrite !initializeProject_present by done. done.
    + destruct (child_process rt (install_line (inquirer_answer rt)) fs)
        as [failure files'] eqn:Hrun.
      rewrite (initializeProject_install rt (mkWorld fs h1 t) failure files') by done.
      rewrite (initializeProject_install rt (mkWorld fs h2 t) failure files') by done.
      destruct failure; done.
  - rewrite !initializeProject_not_expo by done. done.
Qed.

(** X13. In a project that declares both dependencies, [init] is idempotent
    on the files: a second run, in a new process on the files the first one
    left, succeeds as well and leaves the same files. *)
Theorem init_twice_same_files (rt : runtime) (fs : gmap string string) :
  truthy (declared rt fs "expo") = true ->
  truthy (declared rt fs "lucide-react-native") = true ->
  exists w1 w2 : world,
    invoke rt CmdInit fs = (Ret tt, w1) /\
    invoke rt CmdInit (files w1) = (Ret tt, w2) /\
    files w2 = files w1.
Proof.
  intros Hexpo Hlucide.
  assert (Hsame : forall k,
            declared rt (<[CONFIG_FILE := saved_config (mkDeps true true)]> fs) k
            = declared rt fs k).
  { intros k. unfold declared, manifest. by rewrite lookup_insert_ne. }
  assert (Hrun : forall fs0,
            truthy (declared rt fs0 "expo") = true ->
            truthy (declared rt fs0 "lucide-react-native") = true ->
            invoke rt CmdInit fs0 =
              (Ret tt,
               mkWorld (<[CONFIG_FILE := saved_config (mkDeps true true)]> fs0)
                       (<[DEFAULT_DEPENDENCIES := mkDeps true true]> initial_heap)
                       present_events)).
  { intros fs0 H1 H2. unfold invoke. rewrite run_init.
    by rewrite (initializeProject_present rt (start fs0)). }
  eexists _, _. split; [by apply Hrun|]. simpl files.
  split; [apply Hrun; by rewrite Hsame|].
  simpl. apply insert_insert_eq.
Qed.

Lemma init_twice_same_files_witness :
  exists w1 w2 : world,
    invoke ok_runtime CmdInit project_both = (Ret tt, w1) /\
    invoke ok_runtime CmdInit (files w1) = (Ret tt, w2) /\
    files w2 = files w1.
Proof.
  apply (init_twice_same_files ok_runtime project_both); reflexivity.
Defined.

(** ** Configuration on demand *)

(** X14. Without a configuration file, [ensureConfig] answers [false] even
    when the initialisation it runs succeeds: the file [albatroz.json] then
    exists, and the answer still says it did not. *)
Theorem ensureConfig_false_after_successful_init (rt : runtime) (w w1 : world) :
  files w !! CONFIG_FILE = None ->
  initializeProject rt (log [ExistsSync CONFIG_FILE] w) = (Ret true, w1) ->
  ensureConfig rt w = (Ret false, w1) /\
  files w1 !! CONFIG_FILE
    = Some (stringify_config (baseUrl DEFAULT_CONFIG) (mkDeps true true)).
Proof.
  intros Hfile Hinit. split.
  - exact (ensureConfig_missing rt w w1 true Hfile Hinit).
  - exact (initializeProject_true_saved rt _ w1 Hinit).
Qed.

Lemma ensureConfig_false_after_successful_init_witness :
  fst (ensureConfig ok_runtime (start project_both)) = Ret false /\
  files (snd (ensureConfig ok_runtime (start project_both))) !! CONFIG_FILE
    = Some (saved_config (mkDeps true true)).
Proof.
  pose proof (ensureConfig_false_after_successful_init ok_runtime (start project_both)
                (snd (initializeProject ok_runtime
                        (log [ExistsSync CONFIG_FILE] (start project_both))))
                eq_refl eq_refl) as [Hrun Hfile].
  rewrite Hrun. split; [reflexivity|exact Hfile].
Defined.



(** ** The fetcher and writer *)

(** X16. [addComponent] looks at the identifier only through its lower-cased
    form: two identifiers that differ in case give the same request, the
    same file and the same messages. *)
Theorem addComponent_case_insensitive
    (rt : runtime) (name1 name2 : string) (config : json) (w : world) :
  toLowerCase name1 = toLowerCase name2 ->
  addComponent rt name1 config w = addComponent rt name2 config w.
Proof.
  intros Hsame. unfold addComponent, downloadComponent.
  rewrite !formatComponentName_toLowerCase, Hsame. reflexivity.
Qed.

Lemma addComponent_case_insensitive_witness :
  addComponent ok_runtime "AVATAR" (config_json (mkDeps true true)) (start project_configured)
  = addComponent ok_runtime "Avatar" (config_json (mkDeps true true))
      (start project_configured).
Proof.
  apply (addComponent_case_insensitive ok_runtime "AVATAR" "Avatar"). reflexivity.
Defined.

(** X17. Whatever the identifier, the configuration and the answer of the
    network, [addComponent] returns, asks no question, runs no command,
    leaves the heap alone, and leaves [albatroz.json] and [package.json] as
    they are: the only path it may write ends in [.tsx]. *)
Theorem addComponent_leaves_config_and_manifest
    (rt : runtime) (componentName : string) (config : json) (w : world) :
  exists (evs : list event) (w' : world),
    addComponent rt componentName config w = (Ret tt, w') /\
    trace w' = trace w ++ evs /\
    heap w' = heap w /\
    List.filter is_prompt evs = [] /\
    List.filter is_exec evs = [] /\
    files w' !! CONFIG_FILE = files w !! CONFIG_FILE /\
    files w' !! "package.json" = files w !! "package.json".
Proof.
  destruct (addComponent_effects rt componentName config w)
    as (evs & w' & Hrun & Htrace & Hheap & Hprompt & Hexec & _ & Hfiles).
  exists evs, w'. repeat split; try done.
  - destruct Hfiles as [->|[body ->]]; [done|].
    by rewrite lookup_insert_ne by apply target_path_not_config.
  - destruct Hfiles as [->|[body ->]]; [done|].
    by rewrite lookup_insert_ne by apply target_path_not_manifest.
Qed.

(** X18. With the configuration [null] (a file [albatroz.json] that holds
    the JSON [null]), adding a component of the catalog fails before any
    request: the TypeError of [config.baseUrl] is reported and nothing is
    fetched or written. *)
Theorem addComponent_null_config (rt : runtime) (componentName : string) (w : world) :
  includes AVAILABLE_COMPONENTS (toLowerCase componentName) = true ->
  addComponent rt componentName JNull w =
    (Ret tt,
     log [ SpinnerStart "Adding component...";
           SpinnerFail (Styled red ("Failed to add component "
                                    +:+ formatComponentName componentName));
           ConsoleError [Styled red (nl +:+ "Error details:");
                         Plain "Cannot read properties of null (reading 'baseUrl')"] ] w).
Proof.
  intros Hin. rewrite (addComponent_in_catalog rt componentName JNull w Hin).
  by rewrite formatComponentName_toLowerCase.
Qed.

Lemma addComponent_null_config_witness :
  fst (addComponent ok_runtime "alert" JNull (start project_configured)) = Ret tt.
Proof.
  rewrite (addComponent_null_config ok_runtime "alert" (start project_configured));
    reflexivity.
Defined.

(** X19. With a configuration that is not [null] and has no [baseUrl], the
    one request of [addComponent] goes to the relative address
    [undefined/<lower-cased identifier>.tsx]. *)
Theorem addComponent_missing_baseUrl
    (rt : runtime) (componentName : string) (config : json) (w : world) :
  includes AVAILABLE_COMPONENTS (toLowerCase componentName) = true ->
  config <> JNull ->
  baseUrl_of config = None ->
  exists (evs : list event) (w' : world),
    addComponent rt componentName config w = (Ret tt, w') /\
    trace w' = trace w ++ evs /\
    List.filter is_http evs
      = [HttpGet ("undefined/" +:+ toLowerCase componentName +:+ ".tsx")].
Proof.
  intros Hin Hconfig Hbase.
  rewrite (addComponent_in_catalog rt componentName config w Hin).
  assert (Hreq : request_base config = inl "undefined").
  { unfold request_base. rewrite Hbase. by destruct config. }
  rewrite Hreq.
  destruct (fetched _) as [body|msg]; eexists _, _; repeat split; reflexivity.
Qed.

Lemma addComponent_missing_baseUrl_witness :
  exists (evs : list event) (w' : world),
    addComponent ok_runtime "toast" (JObj []) (start project_configured) = (Ret tt, w') /\
    trace w' = trace (start project_configured) ++ evs /\
    List.filter is_http evs = [HttpGet "undefined/toast.tsx"].
Proof.
  apply (addComponent_missing_baseUrl ok_runtime "toast" (JObj [])
           (start project_configured)); [reflexivity|discriminate|reflexivity].
Defined.


